(** * Delta ES030-5 controller sketch: command interpreter, scaling, modes

    Shallow embedding of [src/deltacode.ino] and the properties of its
    command interpreter, unit scaling, mode loop and waveform update.

    Target conventions.  The sketch is written for the classic Arduino
    (AVR) boards: [int] is a 16-bit and [long] a 32-bit two's complement
    integer, [unsigned int] is 16 bits.  All integers are modelled as [Z]
    with the conversions written out ([to_int], [to_long], [to_uint]).

    Floating point.  On the command path every [float] holds an integer
    of magnitude below 2^24 (the result of [map] on an [int]); such a
    value is exact in binary32, so these floats are carried as [Z].  The
    trigonometric part of the waveform functions is not computed here: it
    is supplied by a [FloatUnit], see below. *)

From Stdlib Require Import ZArith String Ascii List Bool Lia.
Import ListNotations.

Local Open Scope string_scope.
Local Open Scope Z_scope.

(** ** Machine integers *)

Definition wrap (bits z : Z) : Z :=
  (z + 2 ^ (bits - 1)) mod 2 ^ bits - 2 ^ (bits - 1).

(** Conversion to [int] (16 bits, signed). *)
Definition to_int (z : Z) : Z := wrap 16 z.
(** Conversion to [long] (32 bits, signed). *)
Definition to_long (z : Z) : Z := wrap 32 z.
(** Conversion to [unsigned int] (16 bits). *)
Definition to_uint (z : Z) : Z := z mod 2 ^ 16.

Definition INT_MIN : Z := -32768.
Definition INT_MAX : Z := 32767.

Definition is_int (z : Z) : Prop := INT_MIN <= z <= INT_MAX.

(** Closes a goal that needs only the range of [int]. *)
Ltac int_range := unfold is_int, INT_MIN, INT_MAX in *; lia.

(** ** The Arduino [String] operations used by the sketch (WString.cpp)

    A [string] stands for the character buffer of an Arduino [String];
    serial lines are text and contain no NUL character. *)

Module WString.

Definition length (s : string) : Z := Z.of_nat (String.length s).

(** [indexOf(ch)]: index of the first occurrence, or -1. *)
Fixpoint indexOf_from (ch : ascii) (s : string) (i : Z) : Z :=
  match s with
  | EmptyString => -1
  | String a s' => if Ascii.eqb a ch then i else indexOf_from ch s' (i + 1)
  end.

Definition indexOf (ch : ascii) (s : string) : Z := indexOf_from ch s 0.

(** [substring(left, right)], both parameters [unsigned int] (a caller
    passing an [int] converts it with [to_uint]): the bounds are swapped
    when [left > right], the result is empty when [left >= len], and
    [right] is cut down to [len]. *)
Definition substring (s : string) (left right : Z) : string :=
  let lo := if right <? left then right else left in
  let hi := if right <? left then left else right in
  if length s <=? lo then EmptyString
  else
    let hi := if length s <? hi then length s else hi in
    String.substring (Z.to_nat lo) (Z.to_nat (hi - lo)) s.

(** [substring(beginIndex)] is [substring(beginIndex, len)]. *)
Definition substring_from (s : string) (beginIndex : Z) : string :=
  substring s beginIndex (length s).

(** [isspace] and [isdigit] of the C library. *)
Definition isspace (c : ascii) : bool :=
  let n := Z.of_nat (nat_of_ascii c) in
  (n =? 32) || ((9 <=? n) && (n <=? 13)).

Definition isdigit (c : ascii) : bool :=
  let n := Z.of_nat (nat_of_ascii c) in
  (48 <=? n) && (n <=? 57).

Definition digit_value (c : ascii) : Z := Z.of_nat (nat_of_ascii c) - 48.

Fixpoint skip_spaces (s : string) : string :=
  match s with
  | String c s' => if isspace c then skip_spaces s' else s
  | EmptyString => s
  end.

(** The run of leading decimal digits, accumulated most significant
    digit first. *)
Fixpoint digits (acc : Z) (s : string) : Z :=
  match s with
  | String c s' =>
      if isdigit c then digits (acc * 10 + digit_value c) s' else acc
  | EmptyString => acc
  end.

(** [atol]: leading white space, an optional sign, then digits; anything
    else ends the number, and a text with no digits gives 0.  The
    accumulation is done in a [long] and wraps. *)
Definition atol (s : string) : Z :=
  match skip_spaces s with
  | String "-"%char s' => to_long (- digits 0 s')
  | String "+"%char s' => to_long (digits 0 s')
  | s' => to_long (digits 0 s')
  end.

(** [String::toInt()] returns [atol(buffer)] as a [long]. *)
Definition toInt (s : string) : Z := atol s.

End WString.

(** ** [map] of the Arduino core (WMath.cpp)

    [long map(long x, long in_min, long in_max, long out_min, long out_max)]
    returns [(x - in_min) * (out_max - out_min) / (in_max - in_min) + out_min],
    computed in [long] with C's division, which truncates toward zero. *)

Definition map (x in_min in_max out_min out_max : Z) : Z :=
  to_long
    (Z.quot (to_long (to_long (x - in_min) * to_long (out_max - out_min)))
            (to_long (in_max - in_min))
     + out_min).

(** ** Configuration constants *)

Definition CONFIRMATION : bool := true.
Definition CONFIRMATION_MESSAGE : string := "OK".
Definition USE_CORRECTION_FACTOR : bool := false.
Definition BAUDRATE : Z := 9600.

Definition V_MON_PIN : Z := 2.
Definition I_MON_PIN : Z := 3.
Definition REF_PIN : Z := 4.
Definition RSD_PIN : Z := 2.
Definition CC_MODE_PIN : Z := 3.

Definition HIGH : Z := 1.
Definition LOW : Z := 0.

Definition VOLTAGE_MIN : Z := 0.
Definition VOLTAGE_MAX : Z := 30000.
Definition CURRENT_MIN : Z := 0.
Definition CURRENT_MAX : Z := 5000.
Definition DAC_MAX : Z := Z.quot 19540 5000.

Definition FREQ_MIN : Z := 0.
Definition FREQ_MAX : Z := 50.
Definition AMP_MIN : Z := 0.
Definition AMP_MAX : Z := 30000.
Definition OFFSET_MIN : Z := 0.
Definition OFFSET_MAX : Z := 30000.
Definition WAVEFORM_MIN : Z := 0.
Definition WAVEFORM_MAX : Z := 3.

(** ** Unit scaling

    The four functions take an [int], call [map] and return the [long]
    result as a [float]; the float is exact (see the header). *)

Definition map_input_voltage (input : Z) : Z :=
  map input VOLTAGE_MIN VOLTAGE_MAX 0 4095.

Definition map_input_current (input : Z) : Z :=
  map input CURRENT_MIN CURRENT_MAX 0 4095.

Definition map_output_voltage (output : Z) : Z :=
  map output 0 4095 VOLTAGE_MIN VOLTAGE_MAX.

Definition map_output_current (output : Z) : Z :=
  map output 0 4095 CURRENT_MIN CURRENT_MAX.

(** Conversion of such a float back to [int] in an assignment. *)
Definition int_of_float (f : Z) : Z := to_int f.

(** ** Run-time variables

    The globals of the sketch form the store.  A [state] gives the value
    of every global. *)

Inductive global : Set :=
| MODE | REFERENCE_VOLTAGE | CORRECTION_FACTOR
| MEASURED_VOLTAGE | LAST_VOLTAGE | VOLTAGE
| MEASURED_CURRENT | LAST_CURRENT | CURRENT
| LAST_WAVEFORM | WAVEFORM
| LAST_FREQ | FREQ
| LAST_AMP | AMP
| LAST_OFFSET | OFFSET.

Scheme Equality for global.

Definition state : Type := global -> Z.

(** The initialisers of the declarations. *)
Definition initial_state : state :=
  fun x =>
    match x with
    | FREQ => 10
    | AMP => 1000
    | _ => 0
    end.

Definition assign (x : global) (v : Z) (st : state) : state :=
  fun y => if global_beq y x then v else st y.

(** ** Hardware and serial port

    What one pass of [loop] reads from the outside world. *)

Record env : Type := {
  (** the pending serial line, as [readStringUntil] returns it; [None]
      when [Serial.available()] is 0 *)
  Serial_input : option string;
  analogRead : Z -> Z;
  digitalRead : Z -> Z;
  millis : Z
}.

(** What the sketch does to the outside world, in program order.  The two
    [setVoltage] events carry the [int output] the sketch passes; the
    library takes it as a [uint16_t], that is, as [to_uint output]. *)
Inductive event : Type :=
| Serial_println (s : string)        (** [Serial.println] of a text *)
| Serial_println_int (n : Z)         (** [Serial.println] of an [int] *)
| Serial_println_float (f : Z)       (** [Serial.println] of a [float]
                                         holding the integer [f] *)
| digitalWrite (pin value : Z)
| voltage_dac_setVoltage (output : Z)
| current_dac_setVoltage (output : Z).

(** ** Floating-point unit

    The trigonometric expressions of the waveform functions, as the target
    evaluates them at a given [millis()] reading.  [sin_positive ms freq]
    is the test [sin(2 * PI * ms * 1e-3 * freq) > 0]; the other three are
    the float results of [cal_sine], [cal_triangle] and [cal_sawtooth]
    after their conversion to the [int output]. *)

Record FloatUnit : Type := {
  sin_positive : Z -> Z -> bool;
  sine_output : Z -> Z -> Z -> Z -> Z;
  triangle_output : Z -> Z -> Z -> Z -> Z;
  sawtooth_output : Z -> Z -> Z -> Z -> Z
}.

(** ** Procedures: state passing with an output trace *)

Definition M (A : Type) : Type := state -> A * state * list event.

Definition ret {A} (a : A) : M A := fun st => (a, st, []).

Definition bind {A B} (m : M A) (k : A -> M B) : M B :=
  fun st =>
    let '(a, st1, out1) := m st in
    let '(b, st2, out2) := k a st1 in
    (b, st2, (out1 ++ out2)%list).

Definition get (x : global) : M Z := fun st => (st x, st, []).
Definition set (x : global) (v : Z) : M unit := fun st => (tt, assign x v st, []).
Definition emit (e : event) : M unit := fun st => (tt, st, [e]).

Declare Scope proc_scope.
Delimit Scope proc_scope with proc.
Notation "x <- m ;; k" := (bind m (fun x => k))
  (at level 61, m at next level, right associativity) : proc_scope.
Notation "m ;; k" := (bind m (fun _ => k))
  (at level 61, right associativity) : proc_scope.
Local Open Scope proc_scope.

(** State and trace after running a procedure. *)
Definition run_state {A} (m : M A) (st : state) : state := snd (fst (m st)).
Definition run_out {A} (m : M A) (st : state) : list event := snd (m st).

(** ** The sketch

    [Serial.begin], [pinMode] and the [begin] calls of the two DACs
    configure the hardware and leave no trace here. *)

Definition setup (e : env) : M unit :=
  emit (digitalWrite RSD_PIN 0) ;;
  (if USE_CORRECTION_FACTOR then
     set REFERENCE_VOLTAGE (to_int (Z.quot (analogRead e REF_PIN) 1024 * 5)) ;;
     r <- get REFERENCE_VOLTAGE ;;
     set CORRECTION_FACTOR (Z.quot r 5)
   else ret tt) ;;
  emit (voltage_dac_setVoltage 0) ;;
  emit (current_dac_setVoltage 0) ;;
  emit (Serial_println "Successfully initiated the controller").

(** The two tokens [read_commands] cuts out of the line it has read. *)
Definition command (input : string) : string :=
  WString.substring input 0 (to_uint (WString.indexOf " " input)).

Definition value (input : string) : string :=
  WString.substring_from input
    (to_uint (to_int (WString.indexOf " " input + 1))).

(** The chain of comparisons on [command]. *)
Definition execute_command (command value : string) : M unit :=
  if (command =? "r")%string then
    emit (digitalWrite RSD_PIN HIGH)
  else if (command =? "s")%string then
    emit (digitalWrite RSD_PIN LOW)
  else if (command =? "sv")%string then
    let new_voltage := to_int (WString.toInt value) in
    if (new_voltage <? VOLTAGE_MIN) || (new_voltage >? VOLTAGE_MAX) then
      emit (Serial_println "err: 1 Voltage out of bounds")
    else
      set VOLTAGE (int_of_float (map_input_voltage new_voltage))
  else if (command =? "sc")%string then
    let new_current := to_int (WString.toInt value) in
    if (new_current <? CURRENT_MIN) || (new_current >? CURRENT_MAX) then
      emit (Serial_println "err: 1 Current out of bounds")
    else
      set CURRENT (int_of_float (map_input_current new_current))
  else if (command =? "gv")%string then
    last <- get LAST_VOLTAGE ;;
    emit (Serial_println_float (map_output_voltage last))
  else if (command =? "gc")%string then
    last <- get LAST_CURRENT ;;
    emit (Serial_println_float (map_output_current last))
  else if (command =? "sm")%string then
    let new_mode := to_int (WString.toInt value) in
    if (new_mode <? 0) || (new_mode >? 1) then
      emit (Serial_println "err: 1 Mode out of bounds")
    else
      set MODE new_mode
  else if (command =? "gm")%string then
    mode <- get MODE ;;
    emit (Serial_println_int mode)
  else if (command =? "sf")%string then
    let new_freq := to_int (WString.toInt value) in
    if (new_freq <? FREQ_MIN) || (new_freq >? FREQ_MAX) then
      emit (Serial_println "err: 1 Frequency out of bounds")
    else
      set FREQ new_freq
  else if (command =? "gf")%string then
    last <- get LAST_FREQ ;;
    emit (Serial_println_int last)
  else if (command =? "sa")%string then
    let new_amp :=
      int_of_float (map_input_voltage (to_int (WString.toInt value))) in
    offset <- get OFFSET ;;
    if to_int (new_amp + offset) >? 4095 then
      emit (Serial_println "err: 1 Amplitude + Offset is greater than 30 V")
    else
      set AMP new_amp
  else if (command =? "ga")%string then
    last <- get LAST_AMP ;;
    emit (Serial_println_float (map_output_voltage last))
  else if (command =? "so")%string then
    let new_offset :=
      int_of_float (map_input_voltage (to_int (WString.toInt value))) in
    amp <- get AMP ;;
    if to_int (new_offset + amp) >? 4095 then
      emit (Serial_println "err: 1 Amplitude + Offset is greater than 30 V")
    else
      set OFFSET new_offset
  else if (command =? "go")%string then
    last <- get LAST_OFFSET ;;
    emit (Serial_println_float (map_output_voltage last))
  else if (command =? "sw")%string then
    let waveform := to_int (WString.toInt value) in
    if (waveform <? WAVEFORM_MIN) || (waveform >? WAVEFORM_MAX) then
      emit (Serial_println "err: 1 Waveform out of bounds")
    else
      set WAVEFORM waveform
  else if (command =? "gw")%string then
    waveform <- get WAVEFORM ;;
    emit (Serial_println_int waveform)
  else
    emit (Serial_println ("err: Unknown command " ++ command ++ "!")).

Definition read_commands (e : env) : M unit :=
  match Serial_input e with
  | Some input =>
      let command := command input in
      let value := value input in
      execute_command command value ;;
      if CONFIRMATION then
        emit (Serial_println
                ("" ++ command ++ " " ++ value ++ " " ++ CONFIRMATION_MESSAGE))
      else ret tt
  | None => ret tt
  end.

Definition update_monitor_readings (e : env) : M unit :=
  set MEASURED_VOLTAGE (to_int (Z.quot (analogRead e V_MON_PIN) 1024 * 5)) ;;
  set MEASURED_CURRENT (to_int (Z.quot (analogRead e I_MON_PIN) 1024 * 5)).

(** The correction both mode updates apply to [output]. *)
Definition corrected (output : Z) : M Z :=
  if USE_CORRECTION_FACTOR then
    factor <- get CORRECTION_FACTOR ;;
    ret (to_int (output * factor))
  else ret output.

Definition execute_psu_mode (e : env) : M unit :=
  update_monitor_readings e ;;
  voltage <- get VOLTAGE ;;
  last_voltage <- get LAST_VOLTAGE ;;
  (if negb (voltage =? last_voltage) then
     output <- corrected voltage ;;
     emit (voltage_dac_setVoltage output) ;;
     set LAST_VOLTAGE voltage
   else ret tt) ;;
  current <- get CURRENT ;;
  last_current <- get LAST_CURRENT ;;
  if negb (current =? last_current) then
    output <- corrected current ;;
    emit (current_dac_setVoltage output) ;;
    set LAST_CURRENT current
  else ret tt.

(** ** Waveforms

    Each function gives the value that reaches the [int output] of
    [execute_function_generator_mode].  [cal_square] assigns an [int] sum
    to its float, which is exact; the other three come from the
    [FloatUnit]. *)

Section Waveforms.

Variable fpu : FloatUnit.

Definition cal_sine (e : env) (freq amplitude offset : Z) : Z :=
  sine_output fpu (millis e) freq amplitude offset.

Definition cal_square (e : env) (freq amplitude offset : Z) : Z :=
  int_of_float
    (if sin_positive fpu (millis e) freq
     then to_int (amplitude + offset)
     else offset).

Definition cal_triangle (e : env) (freq amplitude offset : Z) : Z :=
  triangle_output fpu (millis e) freq amplitude offset.

Definition cal_sawtooth (e : env) (freq amplitude offset : Z) : Z :=
  sawtooth_output fpu (millis e) freq amplitude offset.

(** The [switch (WAVEFORM)]; [output] keeps its initial 0 when no case
    matches. *)
Definition waveform_output (e : env) (waveform freq amp offset : Z) : Z :=
  if waveform =? 0 then cal_sine e freq amp offset
  else if waveform =? 1 then cal_square e freq amp offset
  else if waveform =? 2 then cal_triangle e freq amp offset
  else if waveform =? 3 then cal_sawtooth e freq amp offset
  else 0.

Definition execute_function_generator_mode (e : env) : M unit :=
  update_monitor_readings e ;;
  freq <- get FREQ ;;
  amp <- get AMP ;;
  offset <- get OFFSET ;;
  waveform <- get WAVEFORM ;;
  last_freq <- get LAST_FREQ ;;
  last_amp <- get LAST_AMP ;;
  last_offset <- get LAST_OFFSET ;;
  last_waveform <- get LAST_WAVEFORM ;;
  (if negb (last_freq =? freq) || negb (last_amp =? amp)
      || negb (last_offset =? offset) || negb (last_waveform =? waveform)
   then
     set LAST_FREQ freq ;;
     set LAST_AMP amp ;;
     set LAST_OFFSET offset ;;
     set LAST_WAVEFORM waveform
   else ret tt) ;;
  output <- corrected (waveform_output e waveform freq amp offset) ;;
  emit (voltage_dac_setVoltage output) ;;
  if digitalRead e CC_MODE_PIN =? 1 then
    emit (Serial_println "err: 2 Current limit reached")
  else ret tt.

Definition loop (e : env) : M unit :=
  read_commands e ;;
  mode <- get MODE ;;
  if mode =? 0 then execute_psu_mode e
  else if mode =? 1 then execute_function_generator_mode e
  else emit (Serial_println "err: 0 Unknown mode").

(** The states the sketch can be in: [setup] runs once on the declared
    initial values, then [loop] runs again and again, each time with
    whatever the serial port and the pins hold. *)
Inductive reachable : state -> Prop :=
| reachable_setup (e : env) :
    reachable (run_state (setup e) initial_state)
| reachable_loop (e : env) (st : state) :
    reachable st -> reachable (run_state (loop e) st).

(** The values handed to the voltage DAC in a trace. *)
Fixpoint voltage_dac_writes (out : list event) : list Z :=
  match out with
  | voltage_dac_setVoltage output :: out' => output :: voltage_dac_writes out'
  | _ :: out' => voltage_dac_writes out'
  | [] => []
  end.

End Waveforms.

(** The lines written to the serial port that report an error, by code. *)
Definition is_err (code : string) (ev : event) : bool :=
  match ev with
  | Serial_println s => String.prefix ("err: " ++ code) s
  | _ => false
  end.

(** An environment with a pending line and idle pins. *)
Definition line_env (input : string) : env :=
  {| Serial_input := Some input;
     analogRead := fun _ => 0;
     digitalRead := fun _ => 0;
     millis := 0 |}.

Definition idle_env : env :=
  {| Serial_input := None;
     analogRead := fun _ => 0;
     digitalRead := fun _ => 0;
     millis := 0 |}.

(** * Vocabulary of the properties *)

(** Whether a character occurs in a text. *)
Fixpoint contains (ch : ascii) (s : string) : bool :=
  match s with
  | EmptyString => false
  | String a s' => Ascii.eqb a ch || contains ch s'
  end.

(** The character of a decimal digit. *)
Definition digit_char (d : Z) : ascii := ascii_of_nat (Z.to_nat (48 + d)).

(** The decimal digits of [n], least significant first, pushed in front
    of [rest]. *)
Fixpoint decimal_digits (fuel : nat) (n : Z) (rest : string) : string :=
  match fuel with
  | O => rest
  | S fuel' =>
      let rest' := String (digit_char (n mod 10)) rest in
      if n <? 10 then rest' else decimal_digits fuel' (n / 10) rest'
  end.

(** The usual decimal text of an integer of up to ten digits. *)
Definition decimal (v : Z) : string :=
  if v <? 0 then String "-" (decimal_digits 10 (- v) "")
  else decimal_digits 10 v "".

(** A text whose first character is a decimal digit. *)
Definition starts_with_digit (s : string) : Prop :=
  exists d s', 0 <= d <= 9 /\ s = String (digit_char d) s'.

(** A line that sends [verb] with the integer argument [v]: the verb, a
    space and the decimal text of [v], or any other line that the
    interpreter takes apart into that verb and that integer. *)
Definition sends (verb : string) (v : Z) (input : string) : Prop :=
  input = verb ++ " " ++ decimal v
  \/ (command input = verb /\ to_int (WString.toInt (value input)) = v).

(** The acknowledgement that follows every processed line. *)
Definition confirmation (input : string) : event :=
  Serial_println (command input ++ " " ++ value input ++ " OK").

(** A setter guarded by its own bounds: the error line, or the store. *)
Definition guarded_set (lo hi : Z) (msg : string) (x : global)
    (new_value stored : Z) (st : state) : unit * state * list event :=
  if (new_value <? lo) || (new_value >? hi)
  then (tt, st, [Serial_println msg])
  else (tt, assign x stored st, []).

(** The native code [sa] and [so] compute from their argument. *)
Definition staged_code (value : string) : Z :=
  int_of_float (map_input_voltage (to_int (WString.toInt value))).

(** The two setters guarded by the sum of amplitude and offset only. *)
Definition sum_guarded_set (x other : global) (new_value : Z) (st : state)
    : unit * state * list event :=
  if to_int (new_value + st other) >? 4095
  then (tt, st,
        [Serial_println "err: 1 Amplitude + Offset is greater than 30 V"])
  else (tt, assign x new_value st, []).

(** The sixteen verbs of the dispatch chain. *)
Definition verbs : list string :=
  ["r"; "s"; "sm"; "gm"; "sv"; "sc"; "gv"; "gc";
   "sf"; "sa"; "so"; "sw"; "gf"; "ga"; "go"; "gw"].

(** Whether a command is one of them. *)
Definition recognized (command : string) : bool :=
  existsb (String.eqb command) verbs.

(** The seven verbs that write a setting. *)
Definition setters : list string :=
  ["sv"; "sc"; "sm"; "sf"; "sa"; "so"; "sw"].

(** The mode is PSU (0) or function generator (1). *)
Definition mode_ok (st : state) : Prop := st MODE = 0 \/ st MODE = 1.

(** The amplitude and offset codes are codes of [int] arguments and sum
    to at most the full scale. *)
Definition sum_ok (st : state) : Prop :=
  (-4472 <= st AMP <= 4472) /\ (-4472 <= st OFFSET <= 4472)
  /\ st AMP + st OFFSET <= 4095.

(** What every reachable state satisfies. *)
Definition invariant (st : state) : Prop := mode_ok st /\ sum_ok st.

(** What a command can do to the store. *)
Inductive command_effect (st : state) : state -> Prop :=
| effect_none : command_effect st st
| effect_voltage w : command_effect st (assign VOLTAGE w st)
| effect_current w : command_effect st (assign CURRENT w st)
| effect_mode w : 0 <= w <= 1 -> command_effect st (assign MODE w st)
| effect_freq w : command_effect st (assign FREQ w st)
| effect_waveform w : command_effect st (assign WAVEFORM w st)
| effect_amp w :
    -4472 <= w <= 4472 -> to_int (w + st OFFSET) <= 4095 ->
    command_effect st (assign AMP w st)
| effect_offset w :
    -4472 <= w <= 4472 -> to_int (w + st AMP) <= 4095 ->
    command_effect st (assign OFFSET w st).

(** A floating-point unit whose sine is never positive and whose three
    float waveforms are flat; the PSU path and the command interpreter
    never consult it. *)
Definition idle_fpu : FloatUnit :=
  {| sin_positive := fun _ _ => false;
     sine_output := fun _ _ _ offset => offset;
     triangle_output := fun _ _ _ offset => offset;
     sawtooth_output := fun _ _ _ offset => offset |}.

(** The state after [setup] and then one pass of [loop] per given line. *)
Definition after_lines (lines : list string) : state :=
  fold_left (fun st input => run_state (loop idle_fpu (line_env input)) st)
            lines (run_state (setup idle_env) initial_state).

(** The conversion as the specification words it: the exact quotient
    rounded to the nearest integer, ties away from zero. *)
Definition round_half_away (num den : Z) : Z :=
  if 0 <=? num then (2 * num + den) / (2 * den)
  else - ((2 * (- num) + den) / (2 * den)).

(** [toNative] of the specification, for the native range [0, 4095]. *)
Definition toNative_spec (userValue userMin userMax : Z) : Z :=
  round_half_away ((userValue - userMin) * 4095) (userMax - userMin).

(** The values handed to the current DAC in a trace. *)
Fixpoint current_dac_writes (out : list event) : list Z :=
  match out with
  | current_dac_setVoltage output :: out' => output :: current_dac_writes out'
  | _ :: out' => current_dac_writes out'
  | [] => []
  end.

(** What the command interpreter can emit: a printed line, or a write to
    the remote-shutdown pin. *)
Definition command_event (ev : event) : bool :=
  match ev with
  | Serial_println _ | Serial_println_int _ | Serial_println_float _ => true
  | digitalWrite pin _ => pin =? RSD_PIN
  | voltage_dac_setVoltage _ | current_dac_setVoltage _ => false
  end.

(** The variables no command writes: the last-applied values, the monitor
    readings and the correction data. *)
Definition applied_or_measured : list global :=
  [LAST_VOLTAGE; LAST_CURRENT; LAST_FREQ; LAST_AMP; LAST_OFFSET;
   LAST_WAVEFORM; MEASURED_VOLTAGE; MEASURED_CURRENT; REFERENCE_VOLTAGE;
   CORRECTION_FACTOR].

(** The five setters that check their argument against bounds of their
    own: the verb, the variable it stages, the bounds, the error line, and
    the scale [num / den] by which an accepted argument is converted. *)
Record setter_guard : Type := {
  guard_verb : string;
  guard_variable : global;
  guard_min : Z;
  guard_max : Z;
  guard_message : string;
  guard_num : Z;
  guard_den : Z
}.

Definition setter_guards : list setter_guard :=
  [ {| guard_verb := "sv"; guard_variable := VOLTAGE;
       guard_min := VOLTAGE_MIN; guard_max := VOLTAGE_MAX;
       guard_message := "err: 1 Voltage out of bounds";
       guard_num := 4095; guard_den := 30000 |};
    {| guard_verb := "sc"; guard_variable := CURRENT;
       guard_min := CURRENT_MIN; guard_max := CURRENT_MAX;
       guard_message := "err: 1 Current out of bounds";
       guard_num := 4095; guard_den := 5000 |};
    {| guard_verb := "sm"; guard_variable := MODE;
       guard_min := 0; guard_max := 1;
       guard_message := "err: 1 Mode out of bounds";
       guard_num := 1; guard_den := 1 |};
    {| guard_verb := "sf"; guard_variable := FREQ;
       guard_min := FREQ_MIN; guard_max := FREQ_MAX;
       guard_message := "err: 1 Frequency out of bounds";
       guard_num := 1; guard_den := 1 |};
    {| guard_verb := "sw"; guard_variable := WAVEFORM;
       guard_min := WAVEFORM_MIN; guard_max := WAVEFORM_MAX;
       guard_message := "err: 1 Waveform out of bounds";
       guard_num := 1; guard_den := 1 |} ].

(** A text made of white space only. *)
Fixpoint all_blank (s : string) : bool :=
  match s with
  | EmptyString => true
  | String c s' => WString.isspace c && all_blank s'
  end.

(** A text at which a run of digits ends: empty, or starting with a
    character that is not a digit. *)
Definition stops_number (s : string) : bool :=
  match s with
  | EmptyString => true
  | String c _ => negb (WString.isdigit c)
  end.

(** A text with no number at its start: after the leading white space
    and an optional sign there is no digit. *)
Definition number_free (s : string) : bool :=
  match WString.skip_spaces s with
  | EmptyString => true
  | String c r =>
      if (Ascii.eqb c "-" || Ascii.eqb c "+")%bool then stops_number r
      else negb (WString.isdigit c)
  end.

(** The carriage return. *)
Definition CR : ascii := "013"%char.

(** A native code of the 12-bit DACs. *)
Definition code_ok (z : Z) : Prop := 0 <= z <= 4095.

(** The settings that have bounds of their own are within them, staged
    and last-applied alike. *)
Definition settings_ok (st : state) : Prop :=
  code_ok (st VOLTAGE) /\ code_ok (st LAST_VOLTAGE)
  /\ code_ok (st CURRENT) /\ code_ok (st LAST_CURRENT)
  /\ (FREQ_MIN <= st FREQ <= FREQ_MAX)
  /\ (FREQ_MIN <= st LAST_FREQ <= FREQ_MAX)
  /\ (WAVEFORM_MIN <= st WAVEFORM <= WAVEFORM_MAX)
  /\ (WAVEFORM_MIN <= st LAST_WAVEFORM <= WAVEFORM_MAX).

(** The whole trace of a run, with the state it ends in: [setup], then
    any number of passes of [loop]. *)
Inductive history (fpu : FloatUnit) : list event -> state -> Prop :=
| history_setup (e : env) :
    history fpu (run_out (setup e) initial_state)
            (run_state (setup e) initial_state)
| history_loop (e : env) (out : list event) (st : state) :
    history fpu out st ->
    history fpu (out ++ run_out (loop fpu e) st)%list
            (run_state (loop fpu e) st).

(** The values written to the remote-shutdown pin in a trace. *)
Fixpoint shutdown_writes (out : list event) : list Z :=
  match out with
  | digitalWrite pin v :: out' =>
      if pin =? RSD_PIN then v :: shutdown_writes out'
      else shutdown_writes out'
  | _ :: out' => shutdown_writes out'
  | [] => []
  end.

(** * Properties *)

(** ** Machine integers and scaling *)

Lemma wrap_id (bits z : Z) :
  0 < bits -> - 2 ^ (bits - 1) <= z < 2 ^ (bits - 1) -> wrap bits z = z.
Proof.
  intros Hb Hz. unfold wrap.
  assert (E : 2 ^ bits = 2 * 2 ^ (bits - 1)).
  { replace bits with (Z.succ (bits - 1)) at 1 by lia.
    rewrite Z.pow_succ_r by lia. reflexivity. }
  rewrite Z.mod_small by lia. lia.
Qed.

Lemma wrap_range (bits z : Z) :
  0 < bits -> - 2 ^ (bits - 1) <= wrap bits z < 2 ^ (bits - 1).
Proof.
  intros Hb. unfold wrap.
  assert (E : 2 ^ bits = 2 * 2 ^ (bits - 1)).
  { replace bits with (Z.succ (bits - 1)) at 1 by lia.
    rewrite Z.pow_succ_r by lia. reflexivity. }
  assert (P : 0 < 2 ^ (bits - 1)) by (apply Z.pow_pos_nonneg; lia).
  pose proof (Z.mod_pos_bound (z + 2 ^ (bits - 1)) (2 ^ bits)) as B.
  lia.
Qed.

Lemma to_int_id (z : Z) : is_int z -> to_int z = z.
Proof.
  unfold is_int, INT_MIN, INT_MAX, to_int. intros H.
  apply wrap_id; [lia | change (2 ^ (16 - 1)) with 32768; lia].
Qed.

Lemma to_int_range (z : Z) : is_int (to_int z).
Proof.
  unfold is_int, INT_MIN, INT_MAX, to_int.
  pose proof (wrap_range 16 z) as H.
  change (2 ^ (16 - 1)) with 32768 in H. lia.
Qed.

Lemma to_long_id (z : Z) : - 2147483648 <= z < 2147483648 -> to_long z = z.
Proof.
  intros H. unfold to_long.
  apply wrap_id; [lia | change (2 ^ (32 - 1)) with 2147483648; lia].
Qed.

(** On [int] arguments the [long] arithmetic of [map] never wraps, so the
    scaling functions are plain truncating quotients. *)
Lemma map_from_zero (x in_max out_max : Z) :
  is_int x -> 0 < in_max <= 32767 -> 0 <= out_max <= 32767 ->
  map x 0 in_max 0 out_max = Z.quot (x * out_max) in_max.
Proof.
  unfold is_int, INT_MIN, INT_MAX. intros Hx Hi Ho. unfold map.
  rewrite !Z.sub_0_r, Z.add_0_r.
  rewrite (to_long_id x), (to_long_id out_max), (to_long_id in_max) by lia.
  assert (B : - 1073741824 <= x * out_max < 1073741824) by nia.
  rewrite (to_long_id (x * out_max)) by lia.
  apply to_long_id.
  assert (Q : Z.abs (Z.quot (x * out_max) in_max) <= Z.abs (x * out_max)).
  { rewrite <- Z.quot_abs by lia.
    rewrite (Z.abs_eq in_max) by lia.
    rewrite Z.quot_div_nonneg by lia.
    apply Z.div_le_upper_bound; [lia | nia]. }
  revert Q. generalize (x * out_max ÷ in_max). intros q Q.
  revert B Q. generalize (x * out_max). intros p B Q. lia.
Qed.

Lemma map_input_voltage_quot (input : Z) :
  is_int input -> map_input_voltage input = Z.quot (input * 4095) 30000.
Proof.
  intros H. unfold map_input_voltage, VOLTAGE_MIN, VOLTAGE_MAX.
  apply map_from_zero; [exact H | lia | lia].
Qed.

Lemma map_input_current_quot (input : Z) :
  is_int input -> map_input_current input = Z.quot (input * 4095) 5000.
Proof.
  intros H. unfold map_input_current, CURRENT_MIN, CURRENT_MAX.
  apply map_from_zero; [exact H | lia | lia].
Qed.

Lemma map_output_voltage_quot (output : Z) :
  is_int output -> map_output_voltage output = Z.quot (output * 30000) 4095.
Proof.
  intros H. unfold map_output_voltage, VOLTAGE_MIN, VOLTAGE_MAX.
  apply map_from_zero; [exact H | lia | lia].
Qed.

(** The four scaling functions on an [int]: the [long] that [map] returns
    has magnitude below 2^24, so the [float] they return holds it
    exactly. *)
Lemma scaling_floats_exact (x : Z) :
  is_int x ->
  Z.abs (map_input_voltage x) < 2 ^ 24
  /\ Z.abs (map_input_current x) < 2 ^ 24
  /\ Z.abs (map_output_voltage x) < 2 ^ 24
  /\ Z.abs (map_output_current x) < 2 ^ 24.
Proof.
  intros H.
  assert (Q : forall a b, 0 < a <= 30000 -> 4095 <= b ->
                          Z.abs (Z.quot (x * a) b) < 2 ^ 24).
  { intros a b A B.
    rewrite <- Z.quot_abs by lia. rewrite (Z.abs_eq b) by lia.
    rewrite Z.quot_div_nonneg by lia.
    apply Z.div_lt_upper_bound; [lia |].
    change (2 ^ 24) with 16777216.
    rewrite Z.abs_mul, (Z.abs_eq a) by lia.
    assert (X : 0 <= Z.abs x <= 32768)
      by (unfold is_int, INT_MIN, INT_MAX in H; lia).
    nia. }
  unfold map_input_voltage, map_input_current, map_output_voltage,
    map_output_current, VOLTAGE_MIN, VOLTAGE_MAX, CURRENT_MIN, CURRENT_MAX.
  rewrite !map_from_zero by (first [exact H | lia]).
  repeat split; apply Q; lia.
Qed.

(** The native code of any [int] argument stays within [-4472, 4472]. *)
Lemma map_input_voltage_bounds (input : Z) :
  is_int input -> -4472 <= map_input_voltage input <= 4472.
Proof.
  intros H. rewrite map_input_voltage_quot by exact H.
  unfold is_int, INT_MIN, INT_MAX in H.
  destruct (Z.le_gt_cases 0 input) as [P | N].
  - rewrite Z.quot_div_nonneg by lia.
    split.
    + assert (0 <= input * 4095 / 30000) by (apply Z.div_pos; lia). lia.
    + apply Z.lt_succ_r. apply Z.div_lt_upper_bound; lia.
  - replace (input * 4095) with (- (- input * 4095)) by lia.
    rewrite Z.quot_opp_l by lia.
    rewrite Z.quot_div_nonneg by lia.
    split.
    + assert (- input * 4095 / 30000 < 4473)
        by (apply Z.div_lt_upper_bound; lia).
      lia.
    + assert (0 <= - input * 4095 / 30000) by (apply Z.div_pos; lia). lia.
Qed.

(** ** The store *)

Lemma assign_same (x : global) (v : Z) (st : state) : assign x v st x = v.
Proof. unfold assign. destruct x; reflexivity. Qed.

Lemma assign_other (x y : global) (v : Z) (st : state) :
  x <> y -> assign x v st y = st y.
Proof.
  intros N. unfold assign.
  destruct (global_beq y x) eqn:E; [| reflexivity].
  apply internal_global_dec_bl in E. congruence.
Qed.

(** ** Tokenising a line *)

Lemma indexOf_from_nonneg (ch : ascii) (s : string) (i : Z) :
  0 <= i -> contains ch s = true -> i <= WString.indexOf_from ch s i.
Proof.
  revert i. induction s as [| a s IH]; intros i Hi Hc; simpl in *.
  - discriminate.
  - destruct (Ascii.eqb a ch); [lia |].
    simpl in Hc. specialize (IH (i + 1) ltac:(lia) Hc). lia.
Qed.

Lemma indexOf_absent (ch : ascii) (s : string) :
  contains ch s = false <-> WString.indexOf ch s = -1.
Proof.
  unfold WString.indexOf. split.
  - generalize 0. induction s as [| a s IH]; intros i Hc; simpl in *.
    + reflexivity.
    + destruct (Ascii.eqb a ch); [discriminate | apply IH; exact Hc].
  - intros H. destruct (contains ch s) eqn:E; [| reflexivity].
    pose proof (indexOf_from_nonneg ch s 0 ltac:(lia) E). lia.
Qed.

Lemma substring_whole (s : string) :
  String.substring 0 (String.length s) s = s.
Proof.
  induction s as [| a s IH]; simpl; [reflexivity | now rewrite IH].
Qed.

Lemma WString_substring_whole (s : string) (right : Z) :
  WString.length s <= right -> WString.substring s 0 right = s.
Proof.
  intros H. unfold WString.substring, WString.length in *.
  assert (L : 0 <= Z.of_nat (String.length s)) by lia.
  destruct (Z.ltb_spec right 0) as [R | R]; [lia |].
  destruct (Z.leb_spec (Z.of_nat (String.length s)) 0) as [E | E].
  - destruct s; [reflexivity | simpl String.length in E; lia].
  - destruct (Z.ltb_spec (Z.of_nat (String.length s)) right) as [C | C].
    + rewrite Z.sub_0_r, Nat2Z.id. apply substring_whole.
    + assert (right = Z.of_nat (String.length s)) as -> by lia.
      rewrite Z.sub_0_r, Nat2Z.id. apply substring_whole.
Qed.

(** A line without a space is both the command and the value. *)
Lemma tokens_without_space (input : string) :
  contains " " input = false -> WString.length input <= 65535 ->
  command input = input /\ value input = input.
Proof.
  intros Hc Hl. apply indexOf_absent in Hc.
  unfold command, value, WString.substring_from. rewrite Hc. split.
  - apply WString_substring_whole. exact Hl.
  - apply WString_substring_whole. lia.
Qed.

(** ** Lines made of a verb, a space and a decimal argument *)

Lemma digit_char_spec (d : Z) :
  0 <= d <= 9 ->
  WString.isdigit (digit_char d) = true
  /\ WString.digit_value (digit_char d) = d
  /\ (forall s, WString.atol (String (digit_char d) s)
                = to_long (WString.digits 0 (String (digit_char d) s))).
Proof.
  intros H.
  assert (C : d = 0 \/ d = 1 \/ d = 2 \/ d = 3 \/ d = 4 \/ d = 5 \/ d = 6
              \/ d = 7 \/ d = 8 \/ d = 9) by lia.
  repeat (destruct C as [-> | C]; [repeat split |]); subst; repeat split.
Qed.

Lemma digits_decimal_digits (fuel : nat) :
  forall n rest,
    0 <= n < 10 ^ Z.of_nat fuel ->
    WString.digits 0 (decimal_digits fuel n rest) = WString.digits n rest.
Proof.
  induction fuel as [| fuel IH]; intros n rest B.
  - cbn in B. assert (n = 0) as -> by lia. reflexivity.
  - cbn [decimal_digits].
    destruct (digit_char_spec (n mod 10)) as (D & V & _).
    { pose proof (Z.mod_pos_bound n 10). lia. }
    assert (E : WString.digits (n / 10)
                  (String (digit_char (n mod 10)) rest)
                = WString.digits n rest).
    { cbn [WString.digits]. rewrite D, V. f_equal.
      pose proof (Z.div_mod n 10). lia. }
    destruct (Z.ltb_spec n 10) as [S | L].
    + rewrite <- E, Z.div_small by lia. reflexivity.
    + rewrite IH; [exact E |].
      rewrite Nat2Z.inj_succ, Z.pow_succ_r in B by lia.
      split; [apply Z.div_pos; lia | apply Z.div_lt_upper_bound; lia].
Qed.

Lemma decimal_digits_head (fuel : nat) :
  forall n rest,
    0 <= n -> starts_with_digit rest ->
    starts_with_digit (decimal_digits fuel n rest).
Proof.
  induction fuel as [| fuel IH]; intros n rest N H; cbn [decimal_digits].
  - exact H.
  - assert (H' : starts_with_digit (String (digit_char (n mod 10)) rest)).
    { exists (n mod 10), rest. pose proof (Z.mod_pos_bound n 10). split; [lia | reflexivity]. }
    destruct (n <? 10); [exact H' |].
    apply IH; [apply Z.div_pos; lia | exact H'].
Qed.

Lemma decimal_digits_nonempty (fuel : nat) (n : Z) :
  0 <= n -> starts_with_digit (decimal_digits (S fuel) n "").
Proof.
  intros N. cbn [decimal_digits].
  assert (H' : starts_with_digit (String (digit_char (n mod 10)) "")).
  { exists (n mod 10), "". pose proof (Z.mod_pos_bound n 10). split; [lia | reflexivity]. }
  destruct (n <? 10); [exact H' |].
  apply decimal_digits_head; [apply Z.div_pos; lia | exact H'].
Qed.

(** [toInt] reads back what [decimal] writes. *)
Lemma toInt_decimal (v : Z) :
  -2147483648 <= v < 2147483648 -> WString.toInt (decimal v) = v.
Proof.
  intros B. unfold WString.toInt, decimal.
  destruct (Z.ltb_spec v 0) as [N | P].
  - change (WString.atol (String "-" (decimal_digits 10 (- v) "")))
      with (to_long (- WString.digits 0 (decimal_digits 10 (- v) ""))).
    rewrite digits_decimal_digits by (change (10 ^ Z.of_nat 10) with 10000000000; lia).
    cbn [WString.digits]. rewrite to_long_id by lia. lia.
  - destruct (decimal_digits_nonempty 9 v P) as (d & s' & D & E).
    rewrite E. rewrite (proj2 (proj2 (digit_char_spec d D))).
    rewrite <- E.
    rewrite digits_decimal_digits by (change (10 ^ Z.of_nat 10) with 10000000000; lia).
    cbn [WString.digits]. apply to_long_id. lia.
Qed.

Lemma length_append (a b : string) :
  String.length (a ++ b) = (String.length a + String.length b)%nat.
Proof. induction a as [| c a IH]; cbn; [reflexivity | now rewrite IH]. Qed.

Lemma indexOf_from_append (ch : ascii) (a b : string) (i : Z) :
  contains ch a = false ->
  WString.indexOf_from ch (a ++ String ch b) i = i + WString.length a.
Proof.
  unfold WString.length. revert i.
  induction a as [| c a IH]; intros i H; cbn [append WString.indexOf_from].
  - rewrite Ascii.eqb_refl. cbn. lia.
  - cbn [contains] in H. apply orb_false_elim in H. destruct H as [H1 H2].
    rewrite H1, IH by exact H2. cbn [String.length]. lia.
Qed.

Lemma substring_prefix (a b : string) :
  String.substring 0 (String.length a) (a ++ b) = a.
Proof.
  induction a as [| c a IH]; cbn.
  - destruct b; reflexivity.
  - now rewrite IH.
Qed.

Lemma substring_suffix (a b : string) :
  String.substring (String.length a) (String.length b) (a ++ b) = b.
Proof.
  induction a as [| c a IH]; cbn.
  - apply substring_whole.
  - exact IH.
Qed.

(** The tokens of a line made of a verb, one space and an argument. *)
Lemma tokens_of_line (verb argument : string) :
  contains " " verb = false -> WString.length verb < 32767 ->
  command (verb ++ " " ++ argument) = verb
  /\ value (verb ++ " " ++ argument) = argument.
Proof.
  intros S L.
  assert (Lv : 0 <= WString.length verb) by (unfold WString.length; lia).
  assert (La : 0 <= WString.length argument) by (unfold WString.length; lia).
  assert (Li : WString.length (verb ++ " " ++ argument)
               = WString.length verb + 1 + WString.length argument).
  { unfold WString.length. rewrite length_append. cbn [append String.length].
    lia. }
  unfold command, value, WString.substring_from, WString.indexOf.
  change (verb ++ " " ++ argument) with (verb ++ String " " argument) in *.
  rewrite indexOf_from_append by exact S. rewrite Z.add_0_l.
  rewrite (to_int_id (WString.length verb + 1))
    by int_range.
  unfold to_uint. rewrite !Z.mod_small by (change (2 ^ 16) with 65536; lia).
  unfold WString.substring. rewrite Li. split.
  - destruct (Z.ltb_spec (WString.length verb) 0); [lia |].
    destruct (Z.leb_spec (WString.length verb + 1 + WString.length argument) 0);
      [lia |].
    destruct (Z.ltb_spec (WString.length verb + 1 + WString.length argument)
                (WString.length verb)); [lia |].
    rewrite Z.sub_0_r. unfold WString.length. rewrite Nat2Z.id.
    apply substring_prefix.
  - destruct (Z.ltb_spec (WString.length verb + 1 + WString.length argument)
                (WString.length verb + 1)); [lia |].
    destruct (Z.leb_spec (WString.length verb + 1 + WString.length argument)
                (WString.length verb + 1)) as [E | E].
    + destruct argument; [reflexivity |].
      unfold WString.length in E. cbn [String.length] in E. lia.
    + rewrite Z.ltb_irrefl.
      replace (WString.length verb + 1 + WString.length argument
               - (WString.length verb + 1))
        with (WString.length argument) by lia.
      unfold WString.length.
      replace (Z.of_nat (String.length verb) + 1)
        with (Z.of_nat (String.length (verb ++ " "))) 
        by (rewrite length_append; cbn [String.length]; lia).
      rewrite !Nat2Z.id.
      replace (verb ++ String " " argument) with ((verb ++ " ") ++ argument).
      * apply substring_suffix.
      * clear. induction verb as [| c verb IH]; cbn; [reflexivity | now rewrite IH].
Qed.

(** Every [int] can be sent as the argument of a verb. *)
Lemma decimal_argument (verb : string) (v : Z) :
  contains " " verb = false -> WString.length verb < 32767 -> is_int v ->
  command (verb ++ " " ++ decimal v) = verb
  /\ to_int (WString.toInt (value (verb ++ " " ++ decimal v))) = v.
Proof.
  intros S L I.
  destruct (tokens_of_line verb (decimal v) S L) as [C V].
  split; [exact C |].
  rewrite V, toInt_decimal by (unfold is_int, INT_MIN, INT_MAX in I; lia).
  apply to_int_id. exact I.
Qed.

Lemma sends_tokens (verb : string) (v : Z) (input : string) :
  contains " " verb = false -> WString.length verb < 32767 -> is_int v ->
  sends verb v input ->
  command input = verb /\ to_int (WString.toInt (value input)) = v.
Proof.
  intros S L I [-> | H]; [apply decimal_argument; assumption | exact H].
Qed.

(** ** Running the command interpreter *)

Lemma read_commands_line (e : env) (input : string) (st : state) :
  Serial_input e = Some input ->
  run_state (read_commands e) st
  = run_state (execute_command (command input) (value input)) st
  /\ run_out (read_commands e) st
     = (run_out (execute_command (command input) (value input)) st
        ++ [confirmation input])%list.
Proof.
  intros H. unfold run_state, run_out, read_commands, confirmation.
  rewrite H. unfold bind. simpl.
  destruct (execute_command (command input) (value input) st) as [[u st'] out].
  split; reflexivity.
Qed.

Lemma read_commands_idle (e : env) (st : state) :
  Serial_input e = None -> read_commands e st = (tt, st, []).
Proof. intros H. unfold read_commands. rewrite H. reflexivity. Qed.

Lemma execute_sv (value : string) (st : state) :
  execute_command "sv" value st
  = let v := to_int (WString.toInt value) in
    guarded_set VOLTAGE_MIN VOLTAGE_MAX "err: 1 Voltage out of bounds"
      VOLTAGE v (int_of_float (map_input_voltage v)) st.
Proof.
  unfold guarded_set. cbn [execute_command String.eqb Ascii.eqb Bool.eqb].
  cbv zeta. destruct (_ || _); reflexivity.
Qed.

Lemma execute_sc (value : string) (st : state) :
  execute_command "sc" value st
  = let v := to_int (WString.toInt value) in
    guarded_set CURRENT_MIN CURRENT_MAX "err: 1 Current out of bounds"
      CURRENT v (int_of_float (map_input_current v)) st.
Proof.
  unfold guarded_set. cbn [execute_command String.eqb Ascii.eqb Bool.eqb].
  cbv zeta. destruct (_ || _); reflexivity.
Qed.

Lemma execute_sm (value : string) (st : state) :
  execute_command "sm" value st
  = let v := to_int (WString.toInt value) in
    guarded_set 0 1 "err: 1 Mode out of bounds" MODE v v st.
Proof.
  unfold guarded_set. cbn [execute_command String.eqb Ascii.eqb Bool.eqb].
  cbv zeta. destruct (_ || _); reflexivity.
Qed.

Lemma execute_sf (value : string) (st : state) :
  execute_command "sf" value st
  = let v := to_int (WString.toInt value) in
    guarded_set FREQ_MIN FREQ_MAX "err: 1 Frequency out of bounds" FREQ v v st.
Proof.
  unfold guarded_set. cbn [execute_command String.eqb Ascii.eqb Bool.eqb].
  cbv zeta. destruct (_ || _); reflexivity.
Qed.

Lemma execute_sw (value : string) (st : state) :
  execute_command "sw" value st
  = let v := to_int (WString.toInt value) in
    guarded_set WAVEFORM_MIN WAVEFORM_MAX "err: 1 Waveform out of bounds"
      WAVEFORM v v st.
Proof.
  unfold guarded_set. cbn [execute_command String.eqb Ascii.eqb Bool.eqb].
  cbv zeta. destruct (_ || _); reflexivity.
Qed.

Lemma execute_sa (value : string) (st : state) :
  execute_command "sa" value st
  = sum_guarded_set AMP OFFSET (staged_code value) st.
Proof.
  unfold sum_guarded_set, staged_code.
  cbn [execute_command String.eqb Ascii.eqb Bool.eqb].
  cbv zeta. unfold bind, get. destruct (_ >? _); reflexivity.
Qed.

Lemma execute_so (value : string) (st : state) :
  execute_command "so" value st
  = sum_guarded_set OFFSET AMP (staged_code value) st.
Proof.
  unfold sum_guarded_set, staged_code.
  cbn [execute_command String.eqb Ascii.eqb Bool.eqb].
  cbv zeta. unfold bind, get. destruct (_ >? _); reflexivity.
Qed.

(** The getters print and leave the store alone. *)
Lemma execute_gv (value : string) (st : state) :
  execute_command "gv" value st
  = (tt, st, [Serial_println_float (map_output_voltage (st LAST_VOLTAGE))]).
Proof. reflexivity. Qed.

Lemma execute_gc (value : string) (st : state) :
  execute_command "gc" value st
  = (tt, st, [Serial_println_float (map_output_current (st LAST_CURRENT))]).
Proof. reflexivity. Qed.

Lemma execute_gm (value : string) (st : state) :
  execute_command "gm" value st = (tt, st, [Serial_println_int (st MODE)]).
Proof. reflexivity. Qed.

Lemma execute_gf (value : string) (st : state) :
  execute_command "gf" value st
  = (tt, st, [Serial_println_int (st LAST_FREQ)]).
Proof. reflexivity. Qed.

Lemma execute_ga (value : string) (st : state) :
  execute_command "ga" value st
  = (tt, st, [Serial_println_float (map_output_voltage (st LAST_AMP))]).
Proof. reflexivity. Qed.

Lemma execute_go (value : string) (st : state) :
  execute_command "go" value st
  = (tt, st, [Serial_println_float (map_output_voltage (st LAST_OFFSET))]).
Proof. reflexivity. Qed.

Lemma execute_gw (value : string) (st : state) :
  execute_command "gw" value st
  = (tt, st, [Serial_println_int (st WAVEFORM)]).
Proof. reflexivity. Qed.

Lemma execute_unknown (command value : string) (st : state) :
  recognized command = false ->
  execute_command command value st
  = (tt, st, [Serial_println ("err: Unknown command " ++ command ++ "!")]).
Proof.
  unfold recognized, verbs. cbn [existsb]. intros H.
  repeat (apply orb_false_elim in H; destruct H as [?E H]).
  unfold execute_command.
  repeat match goal with
         | E : (command =? ?v)%string = false |- _ => rewrite E; clear E
         end.
  reflexivity.
Qed.

(** ** The mode updates *)

(** Unfolds a procedure down to the store and the trace. *)
Ltac run_proc :=
  unfold run_state, run_out, execute_psu_mode,
    execute_function_generator_mode, update_monitor_readings, corrected,
    bind, get, set, emit, ret;
  cbn [USE_CORRECTION_FACTOR fst snd app].

(** Splits on every integer comparison left in the goal. *)
Ltac run_cases :=
  cbv [assign global_beq];
  repeat (cbv beta iota zeta; cbn [negb fst snd app orb];
          match goal with
          | |- context [Z.eqb ?a ?b] => destruct (Z.eqb_spec a b)
          end);
  cbv beta iota zeta; cbn [negb fst snd app orb].

(** The PSU update leaves the last-applied values equal to the staged
    ones and touches nothing but them and the monitor readings. *)
Lemma execute_psu_mode_state (e : env) (st : state) (x : global) :
  run_state (execute_psu_mode e) st x
  = match x with
    | MEASURED_VOLTAGE => to_int (Z.quot (analogRead e V_MON_PIN) 1024 * 5)
    | MEASURED_CURRENT => to_int (Z.quot (analogRead e I_MON_PIN) 1024 * 5)
    | LAST_VOLTAGE => st VOLTAGE
    | LAST_CURRENT => st CURRENT
    | _ => st x
    end.
Proof.
  run_proc. run_cases; destruct x; try reflexivity; congruence.
Qed.

Lemma execute_psu_mode_out (e : env) (st : state) :
  run_out (execute_psu_mode e) st
  = ((if st VOLTAGE =? st LAST_VOLTAGE then []
      else [voltage_dac_setVoltage (st VOLTAGE)])
     ++ (if st CURRENT =? st LAST_CURRENT then []
         else [current_dac_setVoltage (st CURRENT)]))%list.
Proof.
  run_proc. run_cases; try reflexivity; congruence.
Qed.

Section ModeUpdates.

Variable fpu : FloatUnit.

(** The function-generator update copies the four waveform settings to
    their last-applied variables and touches nothing else but the
    monitor readings. *)
Lemma execute_function_generator_mode_state
    (e : env) (st : state) (x : global) :
  run_state (execute_function_generator_mode fpu e) st x
  = match x with
    | MEASURED_VOLTAGE => to_int (Z.quot (analogRead e V_MON_PIN) 1024 * 5)
    | MEASURED_CURRENT => to_int (Z.quot (analogRead e I_MON_PIN) 1024 * 5)
    | LAST_FREQ => st FREQ
    | LAST_AMP => st AMP
    | LAST_OFFSET => st OFFSET
    | LAST_WAVEFORM => st WAVEFORM
    | _ => st x
    end.
Proof.
  run_proc. run_cases; destruct x; try reflexivity; congruence.
Qed.

(** It writes exactly one sample, the waveform value as computed, and
    then reports the current limit if the pin is set. *)
Lemma execute_function_generator_mode_out (e : env) (st : state) :
  run_out (execute_function_generator_mode fpu e) st
  = voltage_dac_setVoltage
      (waveform_output fpu e (st WAVEFORM) (st FREQ) (st AMP) (st OFFSET))
    :: (if digitalRead e CC_MODE_PIN =? 1
        then [Serial_println "err: 2 Current limit reached"]
        else []).
Proof.
  run_proc. run_cases; reflexivity.
Qed.

End ModeUpdates.

(** ** One pass of [loop] *)

Section Loop.

Variable fpu : FloatUnit.

Lemma loop_run (e : env) (st : state) :
  let st1 := run_state (read_commands e) st in
  run_state (loop fpu e) st
  = (if st1 MODE =? 0 then run_state (execute_psu_mode e) st1
     else if st1 MODE =? 1
          then run_state (execute_function_generator_mode fpu e) st1
          else st1)
  /\ run_out (loop fpu e) st
     = (run_out (read_commands e) st
        ++ (if st1 MODE =? 0 then run_out (execute_psu_mode e) st1
            else if st1 MODE =? 1
                 then run_out (execute_function_generator_mode fpu e) st1
                 else [Serial_println "err: 0 Unknown mode"]))%list.
Proof.
  unfold loop, run_state, run_out, bind, get.
  destruct (read_commands e st) as [[u st1] out1]. cbn [fst snd].
  destruct (st1 MODE =? 0).
  - destruct (execute_psu_mode e st1) as [[u2 st2] out2].
    split; reflexivity.
  - destruct (st1 MODE =? 1).
    + destruct (execute_function_generator_mode fpu e st1)
        as [[u2 st2] out2].
      split; reflexivity.
    + split; reflexivity.
Qed.

End Loop.

(** ** Invariants of the reachable states *)

(** The codes staged by [sa] and [so]. *)
Lemma staged_code_bounds (value : string) :
  -4472 <= staged_code value <= 4472.
Proof.
  unfold staged_code, int_of_float.
  pose proof (map_input_voltage_bounds _ (to_int_range (WString.toInt value)))
    as B.
  rewrite to_int_id; [exact B |].
  unfold is_int, INT_MIN, INT_MAX. lia.
Qed.

Lemma guarded_set_state (lo hi : Z) (msg : string) (x : global)
    (v w : Z) (st : state) :
  snd (fst (guarded_set lo hi msg x v w st)) = st
  \/ (lo <= v <= hi /\ snd (fst (guarded_set lo hi msg x v w st)) = assign x w st).
Proof.
  unfold guarded_set. rewrite Z.gtb_ltb.
  destruct (Z.ltb_spec v lo); destruct (Z.ltb_spec hi v); cbn [orb fst snd];
    auto.
Qed.

Lemma sum_guarded_set_state (x other : global) (w : Z) (st : state) :
  snd (fst (sum_guarded_set x other w st)) = st
  \/ (to_int (w + st other) <= 4095
      /\ snd (fst (sum_guarded_set x other w st)) = assign x w st).
Proof.
  unfold sum_guarded_set. rewrite Z.gtb_ltb.
  destruct (Z.ltb_spec 4095 (to_int (w + st other))); cbn [fst snd]; auto.
Qed.

(** A command that is not one of the seven setters leaves the store
    alone. *)
Lemma execute_command_no_setter (command value : string) (st : state) :
  existsb (String.eqb command) setters = false ->
  run_state (execute_command command value) st = st.
Proof.
  unfold setters. cbn [existsb]. intros H.
  repeat (apply orb_false_elim in H; destruct H as [?E H]).
  unfold run_state, execute_command.
  repeat match goal with
         | E : (command =? ?v)%string = false |- _ => rewrite E; clear E
         end.
  repeat match goal with
         | |- context [(command =? ?v)%string] =>
             destruct (command =? v)%string; [reflexivity |]
         end.
  reflexivity.
Qed.

Lemma execute_command_effect (command value : string) (st : state) :
  command_effect st (run_state (execute_command command value) st).
Proof.
  destruct (existsb (String.eqb command) setters) eqn:S.
  - unfold setters in S. cbn [existsb] in S. unfold run_state.
    repeat (apply orb_prop in S; destruct S as [S | S]);
      try discriminate; apply String.eqb_eq in S; subst command.
    + rewrite execute_sv. cbv zeta.
      destruct (guarded_set_state VOLTAGE_MIN VOLTAGE_MAX
                  "err: 1 Voltage out of bounds" VOLTAGE
                  (to_int (WString.toInt value))
                  (int_of_float
                     (map_input_voltage (to_int (WString.toInt value)))) st)
        as [-> | [_ ->]]; constructor.
    + rewrite execute_sc. cbv zeta.
      destruct (guarded_set_state CURRENT_MIN CURRENT_MAX
                  "err: 1 Current out of bounds" CURRENT
                  (to_int (WString.toInt value))
                  (int_of_float
                     (map_input_current (to_int (WString.toInt value)))) st)
        as [-> | [_ ->]]; constructor.
    + rewrite execute_sm. cbv zeta.
      destruct (guarded_set_state 0 1 "err: 1 Mode out of bounds" MODE
                  (to_int (WString.toInt value))
                  (to_int (WString.toInt value)) st)
        as [-> | [B ->]]; constructor. exact B.
    + rewrite execute_sf. cbv zeta.
      destruct (guarded_set_state FREQ_MIN FREQ_MAX
                  "err: 1 Frequency out of bounds" FREQ
                  (to_int (WString.toInt value))
                  (to_int (WString.toInt value)) st)
        as [-> | [_ ->]]; constructor.
    + rewrite execute_sa.
      destruct (sum_guarded_set_state AMP OFFSET (staged_code value) st)
        as [-> | [B ->]]; constructor;
        [apply staged_code_bounds | exact B].
    + rewrite execute_so.
      destruct (sum_guarded_set_state OFFSET AMP (staged_code value) st)
        as [-> | [B ->]]; constructor;
        [apply staged_code_bounds | exact B].
    + rewrite execute_sw. cbv zeta.
      destruct (guarded_set_state WAVEFORM_MIN WAVEFORM_MAX
                  "err: 1 Waveform out of bounds" WAVEFORM
                  (to_int (WString.toInt value))
                  (to_int (WString.toInt value)) st)
        as [-> | [_ ->]]; constructor.
  - rewrite execute_command_no_setter by exact S. constructor.
Qed.

Lemma command_effect_invariant (st st' : state) :
  command_effect st st' -> invariant st -> invariant st'.
Proof.
  unfold invariant, mode_ok, sum_ok.
  intros E (M & A & O & S).
  destruct E; unfold assign; cbn [global_beq]; try (repeat split; lia).
  - rewrite to_int_id in H0 by int_range.
    repeat split; lia.
  - rewrite to_int_id in H0 by int_range.
    repeat split; lia.
Qed.

Lemma read_commands_effect (e : env) (st : state) :
  command_effect st (run_state (read_commands e) st).
Proof.
  destruct (Serial_input e) as [input |] eqn:I.
  - destruct (read_commands_line e input st I) as [-> _].
    apply execute_command_effect.
  - unfold run_state. rewrite read_commands_idle by exact I. constructor.
Qed.

Section Reachable.

Variable fpu : FloatUnit.

(** The mode updates read [MODE], [AMP] and [OFFSET] but never write
    them. *)
Lemma loop_keeps_settings (e : env) (st : state) (x : global) :
  In x [MODE; AMP; OFFSET; VOLTAGE; CURRENT; FREQ; WAVEFORM] ->
  run_state (loop fpu e) st x = run_state (read_commands e) st x.
Proof.
  intros X. destruct (loop_run fpu e st) as [-> _].
  destruct (_ =? 0); [| destruct (_ =? 1)].
  - rewrite execute_psu_mode_state.
    cbn [In] in X. intuition (subst; reflexivity).
  - rewrite execute_function_generator_mode_state.
    cbn [In] in X. intuition (subst; reflexivity).
  - reflexivity.
Qed.

Lemma loop_invariant (e : env) (st : state) :
  invariant st -> invariant (run_state (loop fpu e) st).
Proof.
  intros I.
  pose proof (command_effect_invariant _ _ (read_commands_effect e st) I)
    as (M & A & O & S).
  unfold invariant, mode_ok, sum_ok.
  rewrite !loop_keeps_settings by (cbn [In]; tauto).
  repeat split; first [exact M | apply A | apply O | exact S].
Qed.

Lemma reachable_invariant (st : state) : reachable fpu st -> invariant st.
Proof.
  induction 1 as [e | e st R IH].
  - unfold invariant, mode_ok, sum_ok. cbn. lia.
  - apply loop_invariant. exact IH.
Qed.

End Reachable.

(** ** Concrete runs *)

Lemma after_lines_reachable (lines : list string) :
  reachable idle_fpu (after_lines lines).
Proof.
  unfold after_lines.
  assert (G : forall st, reachable idle_fpu st ->
                         reachable idle_fpu
                           (fold_left
                              (fun st input =>
                                 run_state (loop idle_fpu (line_env input)) st)
                              lines st)).
  { induction lines as [| input lines IH]; intros st R; cbn [fold_left].
    - exact R.
    - apply IH. constructor. exact R. }
  apply G. constructor.
Qed.

(** ** Scaling: truncation, not rounding (C4) *)

(** C4, counterexample: 1000 mV is the tie 136.5, which the rule of the
    claim takes to 137 and the code to 136; 1 mA is 0.819 of a code, which
    the rule takes to 1 and the code to 0. *)
Lemma map_input_is_not_rounding :
  map_input_voltage 1000 = 136
  /\ toNative_spec 1000 VOLTAGE_MIN VOLTAGE_MAX = 137
  /\ map_input_current 1 = 0
  /\ toNative_spec 1 CURRENT_MIN CURRENT_MAX = 1.
Proof. repeat split; vm_compute; reflexivity. Qed.

(** C4, as amended: for every in-range user value the conversion to the
    native code truncates: it is the integer part of
    (value - userMin) * 4095 / (userMax - userMin), never above the exact
    quotient and less than one code below it. *)
Theorem map_input_truncates (v c : Z) :
  VOLTAGE_MIN <= v <= VOLTAGE_MAX ->
  CURRENT_MIN <= c <= CURRENT_MAX ->
  map_input_voltage v
  = (v - VOLTAGE_MIN) * 4095 / (VOLTAGE_MAX - VOLTAGE_MIN)
  /\ map_input_current c
     = (c - CURRENT_MIN) * 4095 / (CURRENT_MAX - CURRENT_MIN)
  /\ 30000 * map_input_voltage v <= 4095 * v
     < 30000 * (map_input_voltage v + 1)
  /\ 5000 * map_input_current c <= 4095 * c
     < 5000 * (map_input_current c + 1).
Proof.
  unfold VOLTAGE_MIN, VOLTAGE_MAX, CURRENT_MIN, CURRENT_MAX.
  intros Hv Hc.
  rewrite map_input_voltage_quot, map_input_current_quot
    by int_range.
  rewrite !Z.quot_div_nonneg by lia.
  rewrite !Z.sub_0_r.
  pose proof (Z.div_mod (v * 4095) 30000 ltac:(lia)) as Dv.
  pose proof (Z.mod_pos_bound (v * 4095) 30000 ltac:(lia)) as Bv.
  pose proof (Z.div_mod (c * 4095) 5000 ltac:(lia)) as Dc.
  pose proof (Z.mod_pos_bound (c * 4095) 5000 ltac:(lia)) as Bc.
  repeat split; lia.
Qed.

(** The conversion of 1000 mV and of 1 mA. *)
Lemma map_input_truncates_witness :
  map_input_voltage 1000 = (1000 - VOLTAGE_MIN) * 4095 / (VOLTAGE_MAX - VOLTAGE_MIN)
  /\ map_input_current 1 = (1 - CURRENT_MIN) * 4095 / (CURRENT_MAX - CURRENT_MIN)
  /\ 30000 * map_input_voltage 1000 <= 4095 * 1000
     < 30000 * (map_input_voltage 1000 + 1)
  /\ 5000 * map_input_current 1 <= 4095 * 1
     < 5000 * (map_input_current 1 + 1).
Proof.
  apply (map_input_truncates 1000 1);
    unfold VOLTAGE_MIN, VOLTAGE_MAX, CURRENT_MIN, CURRENT_MAX; lia.
Defined.

(** ** Voltage round trip (C3) *)

Lemma guarded_set_accept (lo hi : Z) (msg : string) (x : global)
    (v w : Z) (st : state) :
  lo <= v <= hi -> guarded_set lo hi msg x v w st = (tt, assign x w st, []).
Proof.
  intros H. unfold guarded_set. rewrite Z.gtb_ltb.
  destruct (Z.ltb_spec v lo); destruct (Z.ltb_spec hi v); cbn [orb];
    first [reflexivity | lia].
Qed.

Lemma guarded_set_reject (lo hi : Z) (msg : string) (x : global)
    (v w : Z) (st : state) :
  v < lo \/ v > hi ->
  guarded_set lo hi msg x v w st = (tt, st, [Serial_println msg]).
Proof.
  intros H. unfold guarded_set. rewrite Z.gtb_ltb.
  destruct (Z.ltb_spec v lo); destruct (Z.ltb_spec hi v); cbn [orb];
    first [reflexivity | lia].
Qed.

(** The code staged for an in-range voltage, and what it reads back as. *)
Lemma voltage_code (v : Z) :
  VOLTAGE_MIN <= v <= VOLTAGE_MAX ->
  int_of_float (map_input_voltage v) = v * 4095 / 30000
  /\ 0 <= v * 4095 / 30000 <= 4095.
Proof.
  unfold VOLTAGE_MIN, VOLTAGE_MAX. intros H.
  assert (B : 0 <= v * 4095 / 30000 <= 4095).
  { split; [apply Z.div_pos; lia |].
    apply Z.lt_succ_r. apply Z.div_lt_upper_bound; lia. }
  split; [| exact B].
  unfold int_of_float.
  rewrite map_input_voltage_quot by int_range.
  rewrite Z.quot_div_nonneg by lia.
  apply to_int_id. unfold is_int, INT_MIN, INT_MAX. lia.
Qed.

Lemma voltage_read_back (v : Z) :
  VOLTAGE_MIN <= v <= VOLTAGE_MAX ->
  v - 8 <= map_output_voltage (v * 4095 / 30000) <= v.
Proof.
  intros H. destruct (voltage_code v H) as [_ B].
  unfold VOLTAGE_MIN, VOLTAGE_MAX in H.
  rewrite map_output_voltage_quot by int_range.
  rewrite Z.quot_div_nonneg by lia.
  pose proof (Z.div_mod (v * 4095) 30000 ltac:(lia)) as D1.
  pose proof (Z.mod_pos_bound (v * 4095) 30000 ltac:(lia)) as B1.
  revert D1 B1 B. generalize (v * 4095 / 30000). intros code D1 B1 B.
  pose proof (Z.div_mod (code * 30000) 4095 ltac:(lia)) as D2.
  pose proof (Z.mod_pos_bound (code * 30000) 4095 ltac:(lia)) as B2.
  lia.
Qed.

Section Passes.

Variable fpu : FloatUnit.

(** A pass whose command leaves the sketch in PSU mode. *)
Lemma loop_psu (e : env) (st : state) :
  run_state (read_commands e) st MODE = 0 ->
  run_state (loop fpu e) st
  = run_state (execute_psu_mode e) (run_state (read_commands e) st)
  /\ run_out (loop fpu e) st
     = (run_out (read_commands e) st
        ++ run_out (execute_psu_mode e)
             (run_state (read_commands e) st))%list.
Proof.
  intros H. destruct (loop_run fpu e st) as [S O].
  rewrite S, O, H. split; reflexivity.
Qed.

(** A pass in PSU mode with an accepted [sv]: the code is staged, then
    the PSU update runs on it. *)
Lemma sv_pass (e : env) (input : string) (st : state) (v : Z) :
  st MODE = 0 -> Serial_input e = Some input -> command input = "sv" ->
  to_int (WString.toInt (value input)) = v ->
  VOLTAGE_MIN <= v <= VOLTAGE_MAX ->
  forall x,
    run_state (loop fpu e) st x
    = run_state (execute_psu_mode e)
        (assign VOLTAGE (v * 4095 / 30000) st) x.
Proof.
  intros M I C V R x.
  destruct (voltage_code v R) as [Ecode _].
  assert (S : run_state (read_commands e) st
              = assign VOLTAGE (v * 4095 / 30000) st).
  { destruct (read_commands_line e input st I) as [-> _].
    unfold run_state. rewrite C, execute_sv. cbv zeta.
    rewrite V, guarded_set_accept by exact R. rewrite Ecode. reflexivity. }
  destruct (loop_psu e st) as [-> _].
  - rewrite S, assign_other by discriminate. exact M.
  - rewrite S. reflexivity.
Qed.

(** A pass in PSU mode with [gv] when nothing is pending. *)
Lemma gv_pass (e : env) (input : string) (st : state) :
  st MODE = 0 -> st VOLTAGE = st LAST_VOLTAGE ->
  st CURRENT = st LAST_CURRENT ->
  Serial_input e = Some input -> command input = "gv" ->
  run_out (loop fpu e) st
  = [Serial_println_float (map_output_voltage (st LAST_VOLTAGE));
     confirmation input].
Proof.
  intros M V C I G.
  assert (S : run_state (read_commands e) st = st).
  { destruct (read_commands_line e input st I) as [-> _].
    unfold run_state. rewrite G, execute_gv. reflexivity. }
  destruct (loop_psu e st) as [_ ->]; [rewrite S; exact M |].
  rewrite S, execute_psu_mode_out, V, C, !Z.eqb_refl.
  destruct (read_commands_line e input st I) as [_ ->].
  unfold run_out. rewrite G, execute_gv. reflexivity.
Qed.

End Passes.

(** C3, counterexample: after [sv 29] has been applied, [gv] prints 21;
    the difference of 8 mV is more than one code's worth, 30000/4095. *)
Lemma gv_after_sv_29 :
  run_out (loop idle_fpu (line_env "gv")) (after_lines ["sv 29"])
  = [Serial_println_float 21; Serial_println "gv gv OK"]
  /\ 30000 < (29 - 21) * 4095.
Proof. split; [vm_compute; reflexivity | lia]. Qed.

(** C3, as amended: for every voltage v in [0, 30000], after a line that
    sends [sv] with the argument v and the PSU-mode update of the same
    pass, [gv] prints a value that is at most v and at least v - 8 mV:
    the code is truncated on the way in and the read-back is truncated
    again, so the loss can reach 8 mV, slightly more than one code
    (7.33 mV). *)
Theorem gv_after_applied_sv (fpu : FloatUnit) (e1 e2 : env)
    (input1 input2 : string) (st : state) (v : Z) :
  st MODE = 0 ->
  VOLTAGE_MIN <= v <= VOLTAGE_MAX ->
  sends "sv" v input1 -> Serial_input e1 = Some input1 ->
  command input2 = "gv" -> Serial_input e2 = Some input2 ->
  exists u,
    run_out (loop fpu e2) (run_state (loop fpu e1) st)
    = [Serial_println_float u; confirmation input2]
    /\ u = map_output_voltage (run_state (loop fpu e1) st LAST_VOLTAGE)
    /\ run_state (loop fpu e1) st LAST_VOLTAGE = map_input_voltage v
    /\ v - 8 <= u <= v.
Proof.
  intros M R Sd I1 C2 I2.
  assert (Iv : is_int v)
    by (unfold is_int, INT_MIN, INT_MAX, VOLTAGE_MIN, VOLTAGE_MAX in *; lia).
  destruct (sends_tokens "sv" v input1 eq_refl eq_refl Iv Sd) as [C1 V].
  pose proof (sv_pass fpu e1 input1 st v M I1 C1 V R) as F.
  assert (Lv : run_state (loop fpu e1) st LAST_VOLTAGE = v * 4095 / 30000).
  { rewrite F, execute_psu_mode_state. apply assign_same. }
  assert (Sv : run_state (loop fpu e1) st VOLTAGE = v * 4095 / 30000).
  { rewrite F, execute_psu_mode_state. apply assign_same. }
  assert (Lc : run_state (loop fpu e1) st CURRENT
               = run_state (loop fpu e1) st LAST_CURRENT).
  { rewrite !F, !execute_psu_mode_state. reflexivity. }
  assert (M1 : run_state (loop fpu e1) st MODE = 0).
  { rewrite F, execute_psu_mode_state, assign_other by discriminate.
    exact M. }
  exists (map_output_voltage (run_state (loop fpu e1) st LAST_VOLTAGE)).
  split; [| split; [reflexivity | split]].
  - apply gv_pass; [exact M1 | congruence | exact Lc | exact I2 | exact C2].
  - rewrite Lv. symmetry.
    unfold VOLTAGE_MIN, VOLTAGE_MAX in R.
    rewrite map_input_voltage_quot by exact Iv.
    apply Z.quot_div_nonneg; lia.
  - rewrite Lv. apply voltage_read_back. exact R.
Qed.

(** [sv 29] and then [gv], from the initial state. *)
Lemma gv_after_applied_sv_witness :
  exists u,
    run_out (loop idle_fpu (line_env "gv"))
      (run_state (loop idle_fpu (line_env "sv 29")) initial_state)
    = [Serial_println_float u; confirmation "gv"]
    /\ u = map_output_voltage
             (run_state (loop idle_fpu (line_env "sv 29")) initial_state
                LAST_VOLTAGE)
    /\ run_state (loop idle_fpu (line_env "sv 29")) initial_state LAST_VOLTAGE
       = map_input_voltage 29
    /\ 29 - 8 <= u <= 29.
Proof.
  apply (gv_after_applied_sv idle_fpu (line_env "sv 29") (line_env "gv")
           "sv 29" "gv" initial_state 29).
  - reflexivity.
  - unfold VOLTAGE_MIN, VOLTAGE_MAX. lia.
  - left. reflexivity.
  - reflexivity.
  - reflexivity.
  - reflexivity.
Defined.

(** ** Rejected and unknown commands (C7, C5, C2) *)




(** C5: for every line whose verb is none of the sixteen, the store is
    left as it was and exactly two lines are printed, the error line
    [err: Unknown command <verb>!] and the acknowledgement with the verb.
    The error line carries no error code: it does not start with
    [err: 0]. *)
Theorem unknown_command_reply (e : env) (input : string) (st : state) :
  Serial_input e = Some input -> recognized (command input) = false ->
  run_state (read_commands e) st = st
  /\ run_out (read_commands e) st
     = [Serial_println ("err: Unknown command " ++ command input ++ "!");
        Serial_println (command input ++ " " ++ value input ++ " OK")]
  /\ is_err "0"
       (Serial_println ("err: Unknown command " ++ command input ++ "!"))
     = false.
Proof.
  intros I U.
  destruct (read_commands_line e input st I) as [S O].
  unfold run_state at 2 in S. unfold run_out at 2 in O.
  rewrite execute_unknown in S, O by exact U.
  cbn [fst snd app] in S, O.
  repeat split; [exact S | exact O].
Qed.

(** The line [zz] in the initial state. *)
Lemma unknown_command_reply_witness :
  run_state (read_commands (line_env "zz")) initial_state = initial_state
  /\ run_out (read_commands (line_env "zz")) initial_state
     = [Serial_println ("err: Unknown command " ++ command "zz" ++ "!");
        Serial_println (command "zz" ++ " " ++ value "zz" ++ " OK")]
  /\ is_err "0"
       (Serial_println ("err: Unknown command " ++ command "zz" ++ "!"))
     = false.
Proof.
  apply (unknown_command_reply (line_env "zz") "zz" initial_state);
    reflexivity.
Defined.

(** C2: [sa] and [so] have no range check of their own: whatever the
    argument, the only test is whether the new code plus the other
    field's code exceeds 4095.  From the initial state, [sa 30001] is
    accepted and stages the code 4095, and [so -30000] is accepted and
    stages the code -4095; neither prints an error line. *)
Theorem sa_so_accept_out_of_range :
  (forall value st,
     execute_command "sa" value st
     = if to_int (staged_code value + st OFFSET) >? 4095
       then (tt, st,
             [Serial_println
                "err: 1 Amplitude + Offset is greater than 30 V"])
       else (tt, assign AMP (staged_code value) st, []))
  /\ (forall value st,
        execute_command "so" value st
        = if to_int (staged_code value + st AMP) >? 4095
          then (tt, st,
                [Serial_println
                   "err: 1 Amplitude + Offset is greater than 30 V"])
          else (tt, assign OFFSET (staged_code value) st, []))
  /\ initial_state AMP = 1000
  /\ run_state (read_commands (line_env "sa 30001")) initial_state AMP = 4095
  /\ run_out (read_commands (line_env "sa 30001")) initial_state
     = [Serial_println "sa 30001 OK"]
  /\ initial_state OFFSET = 0
  /\ run_state (read_commands (line_env "so -30000")) initial_state OFFSET
     = -4095
  /\ run_out (read_commands (line_env "so -30000")) initial_state
     = [Serial_println "so -30000 OK"].
Proof.
  split; [intros value st; rewrite execute_sa; reflexivity |].
  split; [intros value st; rewrite execute_so; reflexivity |].
  repeat apply conj; vm_compute; reflexivity.
Qed.

(** ** Getters (C6) *)

(** C6: in every state and whatever follows the verb on the line, [gv],
    [gc], [gf], [ga] and [go] print from the last-applied variable
    (converted to user units for the three scaled fields) and leave the
    store alone, but [gw] prints the staged [WAVEFORM], not
    [LAST_WAVEFORM]: in PSU mode after [sw 2] the last-applied waveform is
    still 0 and [gw] prints 2. *)
Theorem getters_print (value : string) (st : state) :
  execute_command "gv" value st
  = (tt, st, [Serial_println_float (map_output_voltage (st LAST_VOLTAGE))])
  /\ execute_command "gc" value st
     = (tt, st, [Serial_println_float (map_output_current (st LAST_CURRENT))])
  /\ execute_command "gf" value st
     = (tt, st, [Serial_println_int (st LAST_FREQ)])
  /\ execute_command "ga" value st
     = (tt, st, [Serial_println_float (map_output_voltage (st LAST_AMP))])
  /\ execute_command "go" value st
     = (tt, st, [Serial_println_float (map_output_voltage (st LAST_OFFSET))])
  /\ execute_command "gw" value st
     = (tt, st, [Serial_println_int (st WAVEFORM)])
  /\ after_lines ["sw 2"] LAST_WAVEFORM = 0
  /\ after_lines ["sw 2"] WAVEFORM = 2
  /\ run_out (loop idle_fpu (line_env "gw")) (after_lines ["sw 2"])
     = [Serial_println_int 2; Serial_println "gw gw OK"].
Proof.
  repeat apply conj;
    [apply execute_gv | apply execute_gc | apply execute_gf
     | apply execute_ga | apply execute_go | apply execute_gw
     | vm_compute; reflexivity ..].
Qed.

(** ** Amplitude plus offset (C8) *)

Lemma sum_guarded_set_reject (x other : global) (w : Z) (st : state) :
  is_int (w + st other) -> w + st other > 4095 ->
  sum_guarded_set x other w st
  = (tt, st,
     [Serial_println "err: 1 Amplitude + Offset is greater than 30 V"]).
Proof.
  intros I H. unfold sum_guarded_set. rewrite to_int_id by exact I.
  rewrite Z.gtb_ltb. destruct (Z.ltb_spec 4095 (w + st other));
    [reflexivity | lia].
Qed.

Lemma sum_guarded_set_accept (x other : global) (w : Z) (st : state) :
  is_int (w + st other) -> w + st other <= 4095 ->
  sum_guarded_set x other w st = (tt, assign x w st, []).
Proof.
  intros I H. unfold sum_guarded_set. rewrite to_int_id by exact I.
  rewrite Z.gtb_ltb. destruct (Z.ltb_spec 4095 (w + st other));
    [lia | reflexivity].
Qed.

(** C8: in every reachable state the stored amplitude and offset codes
    sum to at most 4095; an [sa] or [so] line whose code would take the
    sum above 4095 leaves the whole store as it was and prints the
    [err: 1] line; and from the initial state, after [sa 5000], the line
    [so 28000] is rejected in this way. *)
Theorem amplitude_offset_sum (fpu : FloatUnit) (e : env) (input : string)
    (st : state) :
  reachable fpu st -> Serial_input e = Some input ->
  st AMP + st OFFSET <= 4095
  /\ (command input = "sa" ->
      staged_code (value input) + st OFFSET > 4095 ->
      run_state (read_commands e) st = st
      /\ run_out (read_commands e) st
         = [Serial_println "err: 1 Amplitude + Offset is greater than 30 V";
            confirmation input])
  /\ (command input = "so" ->
      staged_code (value input) + st AMP > 4095 ->
      run_state (read_commands e) st = st
      /\ run_out (read_commands e) st
         = [Serial_println "err: 1 Amplitude + Offset is greater than 30 V";
            confirmation input])
  /\ after_lines ["sa 5000"] AMP = 682
  /\ after_lines ["sa 5000"] OFFSET = 0
  /\ staged_code "28000" = 3822
  /\ run_state (read_commands (line_env "so 28000")) (after_lines ["sa 5000"])
     = after_lines ["sa 5000"]
  /\ run_out (read_commands (line_env "so 28000")) (after_lines ["sa 5000"])
     = [Serial_println "err: 1 Amplitude + Offset is greater than 30 V";
        Serial_println "so 28000 OK"].
Proof.
  intros R I.
  destruct (reachable_invariant fpu st R) as (_ & A & O & S).
  pose proof (staged_code_bounds (value input)) as B.
  split; [exact S |].
  split; [| split].
  - intros C V.
    destruct (read_commands_line e input st I) as [-> ->].
    unfold run_state, run_out.
    rewrite C, execute_sa, sum_guarded_set_reject;
      [split; reflexivity | int_range | exact V].
  - intros C V.
    destruct (read_commands_line e input st I) as [-> ->].
    unfold run_state, run_out.
    rewrite C, execute_so, sum_guarded_set_reject;
      [split; reflexivity | int_range | exact V].
  - repeat apply conj; vm_compute; reflexivity.
Qed.

(** [so 28000] after [sa 5000]. *)
Lemma amplitude_offset_sum_witness :
  after_lines ["sa 5000"] AMP + after_lines ["sa 5000"] OFFSET <= 4095
  /\ run_state (read_commands (line_env "so 28000")) (after_lines ["sa 5000"])
     = after_lines ["sa 5000"]
  /\ run_out (read_commands (line_env "so 28000")) (after_lines ["sa 5000"])
     = [Serial_println "err: 1 Amplitude + Offset is greater than 30 V";
        confirmation "so 28000"].
Proof.
  destruct (amplitude_offset_sum idle_fpu (line_env "so 28000") "so 28000"
              (after_lines ["sa 5000"])
              (after_lines_reachable ["sa 5000"]) eq_refl)
    as (S & _ & So & _).
  split; [exact S |].
  apply So; [reflexivity | vm_compute; reflexivity].
Defined.

(** ** The mode variable (C9) *)

(** C9: [MODE] starts at 0 and is 0 or 1 in every reachable state; the
    next pass therefore runs the command and then one of the two mode
    updates, never the unknown-mode branch.  Were [MODE] anything else
    when a pass comes to choose, in any state at all, the pass would run
    no mode update: the store stays as the command left it, and the only
    event added to the command's own output is the line
    [err: 0 Unknown mode]. *)
Theorem mode_is_zero_or_one (fpu : FloatUnit) (e : env) (st : state) :
  reachable fpu st ->
  initial_state MODE = 0
  /\ (st MODE = 0 \/ st MODE = 1)
  /\ (let st1 := run_state (read_commands e) st in
      (st1 MODE = 0
       /\ run_state (loop fpu e) st = run_state (execute_psu_mode e) st1
       /\ run_out (loop fpu e) st
          = (run_out (read_commands e) st
             ++ run_out (execute_psu_mode e) st1)%list)
      \/ (st1 MODE = 1
          /\ run_state (loop fpu e) st
             = run_state (execute_function_generator_mode fpu e) st1
          /\ run_out (loop fpu e) st
             = (run_out (read_commands e) st
                ++ run_out (execute_function_generator_mode fpu e) st1)%list))
  /\ forall (e' : env) (st' : state),
       run_state (read_commands e') st' MODE <> 0 ->
       run_state (read_commands e') st' MODE <> 1 ->
       run_state (loop fpu e') st' = run_state (read_commands e') st'
       /\ run_out (loop fpu e') st'
          = (run_out (read_commands e') st'
             ++ [Serial_println "err: 0 Unknown mode"])%list.
Proof.
  intros R. pose proof (reachable_invariant fpu st R) as I.
  split; [reflexivity |].
  split; [exact (proj1 I) |].
  split.
  - cbv zeta.
    destruct (loop_run fpu e st) as [-> ->].
    destruct (proj1 (command_effect_invariant _ _ (read_commands_effect e st) I))
      as [M | M]; rewrite M; cbn [Z.eqb Pos.eqb]; [left | right];
      repeat split.
  - intros e' st' N0 N1.
    destruct (loop_run fpu e' st') as [-> ->].
    destruct (Z.eqb_spec (run_state (read_commands e') st' MODE) 0) as [E | _];
      [contradiction |].
    destruct (Z.eqb_spec (run_state (read_commands e') st' MODE) 1) as [E | _];
      [contradiction |].
    split; reflexivity.
Qed.

(** [sm 7] is refused after [sm 1]; a pass started with [MODE] forced to
    7 does nothing but report it. *)
Lemma mode_is_zero_or_one_witness :
  (after_lines ["sm 1"; "sm 7"] MODE = 0 \/ after_lines ["sm 1"; "sm 7"] MODE = 1)
  /\ run_out (loop idle_fpu idle_env) (assign MODE 7 initial_state)
     = [Serial_println "err: 0 Unknown mode"].
Proof.
  destruct (mode_is_zero_or_one idle_fpu idle_env
              (after_lines ["sm 1"; "sm 7"])
              (after_lines_reachable ["sm 1"; "sm 7"]))
    as (_ & M & _ & U).
  split; [exact M |].
  apply (U idle_env (assign MODE 7 initial_state)); discriminate.
Defined.

(** ** A setter without an argument (C10) *)

Lemma bare_setter_argument (verb : string) :
  In verb setters ->
  contains " " verb = false /\ WString.length verb <= 65535
  /\ to_int (WString.toInt verb) = 0 /\ staged_code verb = 0.
Proof.
  unfold setters. cbn [In]. intros H.
  repeat (destruct H as [<- | H]; [repeat apply conj; vm_compute;
                                   first [reflexivity | discriminate] |]).
  contradiction.
Qed.

(** A setter verb given as its own argument acts as with the argument
    [0]. *)
Lemma bare_setter_as_zero (verb : string) (st : state) :
  In verb setters ->
  execute_command verb verb st = execute_command verb "0" st.
Proof.
  intros H.
  destruct (bare_setter_argument verb H) as (_ & _ & Z0 & S0).
  assert (Z1 : to_int (WString.toInt "0") = 0) by (vm_compute; reflexivity).
  assert (S1 : staged_code "0" = 0) by (vm_compute; reflexivity).
  unfold setters in H. cbn [In] in H.
  destruct H as [<- | [<- | [<- | [<- | [<- | [<- | [<- | []]]]]]]].
  - rewrite !execute_sv. cbv zeta. rewrite Z0, Z1. reflexivity.
  - rewrite !execute_sc. cbv zeta. rewrite Z0, Z1. reflexivity.
  - rewrite !execute_sm. cbv zeta. rewrite Z0, Z1. reflexivity.
  - rewrite !execute_sf. cbv zeta. rewrite Z0, Z1. reflexivity.
  - rewrite !execute_sa. rewrite S0, S1. reflexivity.
  - rewrite !execute_so. rewrite S0, S1. reflexivity.
  - rewrite !execute_sw. cbv zeta. rewrite Z0, Z1. reflexivity.
Qed.

Lemma bare_guarded_set (e : env) (st : state) (verb msg : string)
    (lo hi : Z) (x : global) (convert : Z -> Z) :
  Serial_input e = Some verb -> command verb = verb -> value verb = verb ->
  to_int (WString.toInt verb) = 0 -> lo <= 0 <= hi -> convert 0 = 0 ->
  (forall value st,
     execute_command verb value st
     = let v := to_int (WString.toInt value) in
       guarded_set lo hi msg x v (convert v) st) ->
  run_state (read_commands e) st = assign x 0 st
  /\ run_out (read_commands e) st
     = [Serial_println (verb ++ " " ++ verb ++ " OK")].
Proof.
  intros I C V Z0 B K X.
  destruct (read_commands_line e verb st I) as [-> ->].
  unfold run_state, run_out, confirmation.
  rewrite C, V, X. cbv zeta. rewrite Z0, guarded_set_accept by exact B.
  rewrite K. split; reflexivity.
Qed.

Lemma bare_sum_guarded_set (e : env) (st : state) (verb : string)
    (x other : global) :
  Serial_input e = Some verb -> command verb = verb -> value verb = verb ->
  staged_code verb = 0 -> is_int (st other) -> st other <= 4095 ->
  (forall value st,
     execute_command verb value st
     = sum_guarded_set x other (staged_code value) st) ->
  run_state (read_commands e) st = assign x 0 st
  /\ run_out (read_commands e) st
     = [Serial_println (verb ++ " " ++ verb ++ " OK")].
Proof.
  intros I C V Z0 B L X.
  destruct (read_commands_line e verb st I) as [-> ->].
  unfold run_state, run_out, confirmation.
  rewrite C, V, X, Z0, sum_guarded_set_accept by (rewrite Z.add_0_l; assumption).
  split; reflexivity.
Qed.

(** A bare [sa] or [so] that the sum check refuses. *)
Lemma bare_sum_guarded_reject (e : env) (st : state) (verb : string)
    (x other : global) :
  Serial_input e = Some verb -> command verb = verb -> value verb = verb ->
  staged_code verb = 0 -> is_int (st other) -> st other > 4095 ->
  (forall value st,
     execute_command verb value st
     = sum_guarded_set x other (staged_code value) st) ->
  run_state (read_commands e) st = st
  /\ run_out (read_commands e) st
     = [Serial_println "err: 1 Amplitude + Offset is greater than 30 V";
        Serial_println (verb ++ " " ++ verb ++ " OK")].
Proof.
  intros I C V Z0 B L X.
  destruct (read_commands_line e verb st I) as [-> ->].
  unfold run_state, run_out, confirmation.
  rewrite C, V, X, Z0, sum_guarded_set_reject by (rewrite Z.add_0_l; assumption).
  split; reflexivity.
Qed.

(** C10, counterexample: [sa -30000] and then [so 32767] are both
    accepted from the initial state and leave the amplitude code -4095
    and the offset code 4472.  In that reachable state the bare line [sa]
    is taken as the argument 0, and 0 + 4472 exceeds 4095: the setter is
    rejected with the [err: 1] line and stages nothing. *)
Lemma bare_sa_rejected :
  reachable idle_fpu (after_lines ["sa -30000"; "so 32767"])
  /\ after_lines ["sa -30000"; "so 32767"] AMP = -4095
  /\ after_lines ["sa -30000"; "so 32767"] OFFSET = 4472
  /\ contains " " "sa" = false
  /\ command "sa" = "sa" /\ value "sa" = "sa"
  /\ staged_code "sa" = 0
  /\ run_state (read_commands (line_env "sa"))
       (after_lines ["sa -30000"; "so 32767"]) AMP
     = -4095
  /\ run_out (read_commands (line_env "sa"))
       (after_lines ["sa -30000"; "so 32767"])
     = [Serial_println "err: 1 Amplitude + Offset is greater than 30 V";
        Serial_println "sa sa OK"].
Proof.
  split; [apply after_lines_reachable |].
  repeat apply conj; vm_compute; reflexivity.
Qed.

(** C10, as amended: for every line without a space (and no longer than a
    [String] can hold) the command and the value are both the whole line.
    When that line is a setter verb, its argument text converts to the
    integer 0 and the setter does exactly what it does with the argument
    [0].  [sv], [sc], [sm], [sf] and [sw] are then accepted: they stage 0
    and print only the acknowledgement.  [sa] and [so] are accepted, and
    stage 0 in the same way, when the other field's stored code is at
    most 4095; when it is above 4095 the sum check refuses the 0: the
    store is left as it was and the [err: 1] line is printed before the
    acknowledgement. *)
Theorem bare_line_tokens (e : env) (input : string) (st : state) :
  Serial_input e = Some input ->
  contains " " input = false -> WString.length input <= 65535 ->
  command input = input /\ value input = input
  /\ (In input setters ->
      to_int (WString.toInt (value input)) = 0
      /\ execute_command (command input) (value input) st
         = execute_command (command input) "0" st)
  /\ (forall x,
        In (input, x)
           [("sv", VOLTAGE); ("sc", CURRENT); ("sm", MODE); ("sf", FREQ);
            ("sw", WAVEFORM)] ->
        run_state (read_commands e) st = assign x 0 st
        /\ run_out (read_commands e) st
           = [Serial_println (input ++ " " ++ input ++ " OK")])
  /\ (forall x other,
        In (input, x, other) [("sa", AMP, OFFSET); ("so", OFFSET, AMP)] ->
        is_int (st other) -> st other <= 4095 ->
        run_state (read_commands e) st = assign x 0 st
        /\ run_out (read_commands e) st
           = [Serial_println (input ++ " " ++ input ++ " OK")])
  /\ (forall x other,
        In (input, x, other) [("sa", AMP, OFFSET); ("so", OFFSET, AMP)] ->
        is_int (st other) -> st other > 4095 ->
        run_state (read_commands e) st = st
        /\ run_out (read_commands e) st
           = [Serial_println "err: 1 Amplitude + Offset is greater than 30 V";
              Serial_println (input ++ " " ++ input ++ " OK")]).
Proof.
  intros I S L.
  destruct (tokens_without_space input S L) as [C V].
  split; [exact C |]. split; [exact V |].
  split; [| split; [| split]].
  - intros H. rewrite C, V.
    split; [apply (bare_setter_argument input H) |].
    apply bare_setter_as_zero. exact H.
  - intros x H. cbn [In] in H.
    destruct H as [H | [H | [H | [H | [H | []]]]]];
      injection H as <- <-.
    + apply (bare_guarded_set e st "sv" "err: 1 Voltage out of bounds"
               VOLTAGE_MIN VOLTAGE_MAX VOLTAGE
               (fun v => int_of_float (map_input_voltage v)));
        first [assumption | reflexivity | apply execute_sv
               | vm_compute; split; discriminate].
    + apply (bare_guarded_set e st "sc" "err: 1 Current out of bounds"
               CURRENT_MIN CURRENT_MAX CURRENT
               (fun v => int_of_float (map_input_current v)));
        first [assumption | reflexivity | apply execute_sc
               | vm_compute; split; discriminate].
    + apply (bare_guarded_set e st "sm" "err: 1 Mode out of bounds"
               0 1 MODE (fun v => v));
        first [assumption | reflexivity | apply execute_sm
               | vm_compute; split; discriminate].
    + apply (bare_guarded_set e st "sf" "err: 1 Frequency out of bounds"
               FREQ_MIN FREQ_MAX FREQ (fun v => v));
        first [assumption | reflexivity | apply execute_sf
               | vm_compute; split; discriminate].
    + apply (bare_guarded_set e st "sw" "err: 1 Waveform out of bounds"
               WAVEFORM_MIN WAVEFORM_MAX WAVEFORM (fun v => v));
        first [assumption | reflexivity | apply execute_sw
               | vm_compute; split; discriminate].
  - intros x other H B M. cbn [In] in H.
    destruct H as [H | [H | []]]; injection H as <- <- <-.
    + apply (bare_sum_guarded_set e st "sa" AMP OFFSET);
        first [assumption | reflexivity | apply execute_sa].
    + apply (bare_sum_guarded_set e st "so" OFFSET AMP);
        first [assumption | reflexivity | apply execute_so].
  - intros x other H B M. cbn [In] in H.
    destruct H as [H | [H | []]]; injection H as <- <- <-.
    + apply (bare_sum_guarded_reject e st "sa" AMP OFFSET);
        first [assumption | reflexivity | apply execute_sa].
    + apply (bare_sum_guarded_reject e st "so" OFFSET AMP);
        first [assumption | reflexivity | apply execute_so].
Qed.

(** The bare line [sv] after [sv 1000]: the staged code goes from 136
    to 0. *)
Lemma bare_line_tokens_witness :
  command "sv" = "sv" /\ value "sv" = "sv"
  /\ after_lines ["sv 1000"] VOLTAGE = 136
  /\ run_state (read_commands (line_env "sv")) (after_lines ["sv 1000"])
     = assign VOLTAGE 0 (after_lines ["sv 1000"])
  /\ run_out (read_commands (line_env "sv")) (after_lines ["sv 1000"])
     = [Serial_println "sv sv OK"].
Proof.
  destruct (bare_line_tokens (line_env "sv") "sv" (after_lines ["sv 1000"])
              eq_refl eq_refl ltac:(vm_compute; discriminate))
    as (C & V & _ & S & _).
  split; [exact C |]. split; [exact V |].
  split; [vm_compute; reflexivity |].
  apply (S VOLTAGE). left. reflexivity.
Defined.

(** ** The sample of the function generator (C1) *)

(** C1, counterexample: [sw 1] and [so -30000] are both accepted from the
    initial state and leave the square waveform with amplitude code 1000
    and offset code -4095.  The function-generator update then hands
    -4095 to the DAC (-3095 had the sine been positive), which the
    library reads as the [uint16_t] 61441: the sample is not clamped to
    [0, 4095]. *)
Lemma square_sample_below_range :
  reachable idle_fpu (after_lines ["sw 1"; "so -30000"])
  /\ after_lines ["sw 1"; "so -30000"] WAVEFORM = 1
  /\ after_lines ["sw 1"; "so -30000"] AMP = 1000
  /\ after_lines ["sw 1"; "so -30000"] OFFSET = -4095
  /\ voltage_dac_writes
       (run_out (execute_function_generator_mode idle_fpu idle_env)
          (after_lines ["sw 1"; "so -30000"]))
     = [-4095]
  /\ ~ (0 <= -4095 <= 4095)
  /\ to_uint (-4095) = 61441
  /\ (forall (fpu : FloatUnit) (e : env),
        Forall (fun sample => sample < 0)
          (voltage_dac_writes
             (run_out (execute_function_generator_mode fpu e)
                (after_lines ["sw 1"; "so -30000"])))).
Proof.
  split; [apply after_lines_reachable |].
  do 4 (split; [vm_compute; reflexivity |]).
  split; [lia |].
  split; [reflexivity |].
  intros fpu e. rewrite execute_function_generator_mode_out.
  replace (after_lines ["sw 1"; "so -30000"] WAVEFORM) with 1
    by (vm_compute; reflexivity).
  replace (after_lines ["sw 1"; "so -30000"] FREQ) with 10
    by (vm_compute; reflexivity).
  replace (after_lines ["sw 1"; "so -30000"] AMP) with 1000
    by (vm_compute; reflexivity).
  replace (after_lines ["sw 1"; "so -30000"] OFFSET) with (-4095)
    by (vm_compute; reflexivity).
  unfold waveform_output, cal_square. cbn [Z.eqb Pos.eqb].
  destruct (digitalRead e CC_MODE_PIN =? 1);
    destruct (sin_positive fpu (millis e) 10);
    cbn [voltage_dac_writes]; constructor;
      first [vm_compute; reflexivity | constructor].
Qed.

(** C1, as amended: the function-generator update hands the waveform
    value to the DAC as computed, with no clamp to [0, 4095]; for the
    square waveform the value lies in [0, 4095] whenever the stored
    amplitude and offset codes are non-negative and sum to at most 4095.
    The update never fails: in every state it writes exactly one sample,
    and the only other thing it can emit is the [err: 2] current-limit
    line. *)
Theorem function_generator_sample (fpu : FloatUnit) (e : env) (st : state) :
  let sample :=
    waveform_output fpu e (st WAVEFORM) (st FREQ) (st AMP) (st OFFSET) in
  voltage_dac_writes (run_out (execute_function_generator_mode fpu e) st)
  = [sample]
  /\ (run_out (execute_function_generator_mode fpu e) st
      = [voltage_dac_setVoltage sample]
      \/ run_out (execute_function_generator_mode fpu e) st
         = [voltage_dac_setVoltage sample;
            Serial_println "err: 2 Current limit reached"])
  /\ (st WAVEFORM = 1 -> 0 <= st AMP -> 0 <= st OFFSET ->
      st AMP + st OFFSET <= 4095 ->
      0 <= sample <= 4095
      /\ (sample = st AMP + st OFFSET \/ sample = st OFFSET)).
Proof.
  cbv zeta. rewrite execute_function_generator_mode_out.
  split; [| split].
  - destruct (digitalRead e CC_MODE_PIN =? 1); reflexivity.
  - destruct (digitalRead e CC_MODE_PIN =? 1); [right | left]; reflexivity.
  - intros W A O S. rewrite W.
    unfold waveform_output, cal_square, int_of_float. cbn [Z.eqb Pos.eqb].
    assert (Is : is_int (st AMP + st OFFSET))
      by int_range.
    assert (Io : is_int (st OFFSET))
      by int_range.
    destruct (sin_positive fpu (millis e) (st FREQ)).
    + rewrite (to_int_id _ Is), (to_int_id _ Is). split; [lia | tauto].
    + rewrite (to_int_id _ Io). split; [lia | tauto].
Qed.

(** The square waveform with amplitude code 1000 and offset code 273. *)
Lemma function_generator_sample_witness :
  voltage_dac_writes
    (run_out (execute_function_generator_mode idle_fpu idle_env)
       (after_lines ["sw 1"; "so 2000"]))
  = [273]
  /\ 0 <= waveform_output idle_fpu idle_env 1 10 1000 273 <= 4095.
Proof.
  destruct (function_generator_sample idle_fpu idle_env
              (after_lines ["sw 1"; "so 2000"]))
    as (W & _ & B).
  specialize (B ltac:(vm_compute; reflexivity)
                ltac:(vm_compute; discriminate)
                ltac:(vm_compute; discriminate)
                ltac:(vm_compute; discriminate)).
  split; [rewrite W; vm_compute; reflexivity | exact (proj1 B)].
Defined.

(** * Further properties of the sketch *)

(** ** Monitor readings *)

(** X1: the analog inputs are 10-bit readings, 0 to 1023; the division by
    1024 is an integer division, so [update_monitor_readings] stores 0 in
    both [MEASURED_VOLTAGE] and [MEASURED_CURRENT] whatever the pins read,
    and changes no other variable. *)
Theorem monitor_readings_are_zero (e : env) (st : state) :
  0 <= analogRead e V_MON_PIN <= 1023 ->
  0 <= analogRead e I_MON_PIN <= 1023 ->
  run_state (update_monitor_readings e) st MEASURED_VOLTAGE = 0
  /\ run_state (update_monitor_readings e) st MEASURED_CURRENT = 0
  /\ (forall x, x <> MEASURED_VOLTAGE -> x <> MEASURED_CURRENT ->
                run_state (update_monitor_readings e) st x = st x)
  /\ run_out (update_monitor_readings e) st = [].
Proof.
  intros V I.
  unfold run_state, run_out, update_monitor_readings, bind, set.
  cbn [fst snd app].
  rewrite (Z.quot_small (analogRead e V_MON_PIN)) by lia.
  rewrite (Z.quot_small (analogRead e I_MON_PIN)) by lia.
  change (to_int (0 * 5)) with 0.
  repeat split.
  intros x Nv Ni. rewrite !assign_other by congruence. reflexivity.
Qed.

(** A full-scale reading on both pins. *)
Lemma monitor_readings_are_zero_witness :
  run_state
    (update_monitor_readings
       {| Serial_input := None; analogRead := fun _ => 1023;
          digitalRead := fun _ => 0; millis := 0 |})
    (assign MEASURED_VOLTAGE 5 initial_state) MEASURED_VOLTAGE
  = 0.
Proof.
  apply (monitor_readings_are_zero
           {| Serial_input := None; analogRead := fun _ => 1023;
              digitalRead := fun _ => 0; millis := 0 |}
           (assign MEASURED_VOLTAGE 5 initial_state)); cbn; lia.
Defined.

(** ** The PSU update *)

(** What the PSU update writes to the two DACs. *)
Lemma psu_writes (e : env) (st : state) :
  voltage_dac_writes (run_out (execute_psu_mode e) st)
  = (if st VOLTAGE =? st LAST_VOLTAGE then [] else [st VOLTAGE])
  /\ current_dac_writes (run_out (execute_psu_mode e) st)
     = (if st CURRENT =? st LAST_CURRENT then [] else [st CURRENT]).
Proof.
  rewrite !execute_psu_mode_out.
  split; destruct (st VOLTAGE =? st LAST_VOLTAGE);
    destruct (st CURRENT =? st LAST_CURRENT); reflexivity.
Qed.

(** X2: the PSU update writes a DAC only when the staged code differs
    from the last-applied one, and then writes the staged code; once it
    has run, running it again writes nothing. *)
Theorem psu_update_writes_changes_only (e e' : env) (st : state) :
  voltage_dac_writes (run_out (execute_psu_mode e) st)
  = (if st VOLTAGE =? st LAST_VOLTAGE then [] else [st VOLTAGE])
  /\ current_dac_writes (run_out (execute_psu_mode e) st)
     = (if st CURRENT =? st LAST_CURRENT then [] else [st CURRENT])
  /\ run_out (execute_psu_mode e') (run_state (execute_psu_mode e) st) = [].
Proof.
  rewrite !execute_psu_mode_out.
  split; [| split].
  - destruct (st VOLTAGE =? st LAST_VOLTAGE);
      destruct (st CURRENT =? st LAST_CURRENT); reflexivity.
  - destruct (st VOLTAGE =? st LAST_VOLTAGE);
      destruct (st CURRENT =? st LAST_CURRENT); reflexivity.
  - rewrite !execute_psu_mode_state, !Z.eqb_refl. reflexivity.
Qed.

(** ** What the command interpreter leaves alone *)

Lemma guarded_set_out (lo hi : Z) (msg : string) (x : global)
    (v w : Z) (st : state) :
  snd (guarded_set lo hi msg x v w st) = []
  \/ snd (guarded_set lo hi msg x v w st) = [Serial_println msg].
Proof. unfold guarded_set. destruct (_ || _); auto. Qed.

Lemma sum_guarded_set_out (x other : global) (w : Z) (st : state) :
  snd (sum_guarded_set x other w st) = []
  \/ snd (sum_guarded_set x other w st)
     = [Serial_println "err: 1 Amplitude + Offset is greater than 30 V"].
Proof. unfold sum_guarded_set. destruct (_ >? _); auto. Qed.

(** A command emits nothing, or one event of the interpreter's kind. *)
Lemma execute_command_out (command value : string) (st : state) :
  run_out (execute_command command value) st = []
  \/ exists ev, run_out (execute_command command value) st = [ev]
                /\ command_event ev = true.
Proof.
  unfold run_out.
  destruct (existsb (String.eqb command) setters) eqn:S.
  - unfold setters in S. cbn [existsb] in S.
    repeat (apply orb_prop in S; destruct S as [S | S]);
      try discriminate; apply String.eqb_eq in S; subst command;
      rewrite ?execute_sv, ?execute_sc, ?execute_sm, ?execute_sf,
        ?execute_sa, ?execute_so, ?execute_sw; cbv zeta;
      match goal with
      | |- context [guarded_set ?lo ?hi ?msg ?x ?v ?w ?st] =>
          destruct (guarded_set_out lo hi msg x v w st) as [-> | ->]
      | |- context [sum_guarded_set ?x ?o ?w ?st] =>
          destruct (sum_guarded_set_out x o w st) as [-> | ->]
      end;
      first [left; reflexivity | right; eexists; split; reflexivity].
  - unfold setters in S. cbn [existsb] in S.
    repeat (apply orb_false_elim in S; destruct S as [?E S]).
    unfold execute_command.
    repeat match goal with
           | E : (command =? ?v)%string = false |- _ => rewrite E; clear E
           end.
    repeat match goal with
           | |- context [(command =? ?v)%string] =>
               destruct (command =? v)%string;
               [right; eexists; split; reflexivity |]
           end.
    right; eexists; split; reflexivity.
Qed.

Lemma voltage_dac_writes_app (out1 out2 : list event) :
  voltage_dac_writes (out1 ++ out2)
  = (voltage_dac_writes out1 ++ voltage_dac_writes out2)%list.
Proof.
  induction out1 as [| ev out1 IH]; [reflexivity |].
  destruct ev; cbn; rewrite IH; reflexivity.
Qed.

Lemma current_dac_writes_app (out1 out2 : list event) :
  current_dac_writes (out1 ++ out2)
  = (current_dac_writes out1 ++ current_dac_writes out2)%list.
Proof.
  induction out1 as [| ev out1 IH]; [reflexivity |].
  destruct ev; cbn; rewrite IH; reflexivity.
Qed.

Lemma command_event_no_dac (ev : event) :
  command_event ev = true ->
  voltage_dac_writes [ev] = [] /\ current_dac_writes [ev] = [].
Proof. destruct ev; cbn; intros H; first [discriminate | split; reflexivity]. Qed.

(** [read_commands] writes no DAC. *)
Lemma read_commands_no_dac (e : env) (st : state) :
  voltage_dac_writes (run_out (read_commands e) st) = []
  /\ current_dac_writes (run_out (read_commands e) st) = [].
Proof.
  destruct (Serial_input e) as [input |] eqn:I.
  - destruct (read_commands_line e input st I) as [_ ->].
    rewrite voltage_dac_writes_app, current_dac_writes_app.
    destruct (execute_command_out (command input) (value input) st)
      as [-> | (ev & -> & K)].
    + split; reflexivity.
    + destruct (command_event_no_dac ev K) as [-> ->]. split; reflexivity.
  - unfold run_out. rewrite read_commands_idle by exact I. split; reflexivity.
Qed.

(** X3: whatever the line, [read_commands] only stages: it writes neither
    DAC, emits nothing but printed lines and writes to the remote-shutdown
    pin, prints at most one line before the acknowledgement, and leaves
    every last-applied variable, both monitor readings and the correction
    data as they were. *)
Theorem read_commands_only_stages (e : env) (st : state) :
  voltage_dac_writes (run_out (read_commands e) st) = []
  /\ current_dac_writes (run_out (read_commands e) st) = []
  /\ forallb command_event (run_out (read_commands e) st) = true
  /\ (length (run_out (read_commands e) st) <= 2)%nat
  /\ forall x, In x applied_or_measured ->
               run_state (read_commands e) st x = st x.
Proof.
  destruct (read_commands_no_dac e st) as [V C].
  split; [exact V |]. split; [exact C |].
  split; [| split].
  - destruct (Serial_input e) as [input |] eqn:I.
    + destruct (read_commands_line e input st I) as [_ ->].
      destruct (execute_command_out (command input) (value input) st)
        as [-> | (ev & -> & K)]; cbn; rewrite ?K; reflexivity.
    + unfold run_out. rewrite read_commands_idle by exact I. reflexivity.
  - destruct (Serial_input e) as [input |] eqn:I.
    + destruct (read_commands_line e input st I) as [_ ->].
      destruct (execute_command_out (command input) (value input) st)
        as [-> | (ev & -> & K)]; cbn; lia.
    + unfold run_out. rewrite read_commands_idle by exact I. cbn. lia.
  - intros x X.
    destruct (read_commands_effect e st); try reflexivity;
      apply assign_other; unfold applied_or_measured in X; cbn [In] in X;
      intuition (subst; discriminate).
Qed.

(** ** The range-checked setters *)

(** The code staged for an in-range current. *)
Lemma current_code (c : Z) :
  CURRENT_MIN <= c <= CURRENT_MAX ->
  int_of_float (map_input_current c) = c * 4095 / 5000
  /\ 0 <= c * 4095 / 5000 <= 4095.
Proof.
  unfold CURRENT_MIN, CURRENT_MAX. intros H.
  assert (B : 0 <= c * 4095 / 5000 <= 4095).
  { split; [apply Z.div_pos; lia |].
    apply Z.lt_succ_r. apply Z.div_lt_upper_bound; lia. }
  split; [| exact B].
  unfold int_of_float.
  rewrite map_input_current_quot by int_range.
  rewrite Z.quot_div_nonneg by lia.
  apply to_int_id. int_range.
Qed.

(** A line for a setter with bounds of its own: rejected outside them,
    staged inside them. *)
Lemma guarded_setter_line (e : env) (input : string) (st : state)
    (verb msg : string) (lo hi : Z) (x : global) (convert : Z -> Z) (v : Z) :
  command input = verb -> to_int (WString.toInt (value input)) = v ->
  Serial_input e = Some input ->
  (forall value st,
     execute_command verb value st
     = let v := to_int (WString.toInt value) in
       guarded_set lo hi msg x v (convert v) st) ->
  (v < lo \/ v > hi ->
   run_state (read_commands e) st = st
   /\ run_out (read_commands e) st = [Serial_println msg; confirmation input])
  /\ (lo <= v <= hi ->
      run_state (read_commands e) st = assign x (convert v) st
      /\ run_out (read_commands e) st = [confirmation input]).
Proof.
  intros C V I X.
  destruct (read_commands_line e input st I) as [-> ->].
  unfold run_state, run_out. rewrite C, X. cbv zeta. rewrite V.
  split; intros R.
  - rewrite guarded_set_reject by exact R. split; reflexivity.
  - rewrite guarded_set_accept by exact R. split; reflexivity.
Qed.

(** The five setters of the table, on a line already cut into its verb
    and its integer. *)
Lemma guarded_setter_cases (e : env) (input : string) (st : state)
    (g : setter_guard) (v : Z) :
  In g setter_guards ->
  command input = guard_verb g -> to_int (WString.toInt (value input)) = v ->
  Serial_input e = Some input ->
  (v < guard_min g \/ v > guard_max g ->
   run_state (read_commands e) st = st
   /\ run_out (read_commands e) st
      = [Serial_println (guard_message g); confirmation input])
  /\ (guard_min g <= v <= guard_max g ->
      run_state (read_commands e) st
      = assign (guard_variable g) (v * guard_num g / guard_den g) st
      /\ run_out (read_commands e) st = [confirmation input]).
Proof.
  intros G C V I. unfold setter_guards in G. cbn [In] in G.
  destruct G as [<- | [<- | [<- | [<- | [<- | []]]]]];
    cbn [guard_verb guard_variable guard_min guard_max guard_message
         guard_num guard_den] in *.
  - destruct (guarded_setter_line e input st _ _ _ _ _
                (fun v => int_of_float (map_input_voltage v)) v C V I
                execute_sv) as [Rj Ac].
    split; [exact Rj |]. intros R.
    rewrite <- (proj1 (voltage_code v R)). exact (Ac R).
  - destruct (guarded_setter_line e input st _ _ _ _ _
                (fun v => int_of_float (map_input_current v)) v C V I
                execute_sc) as [Rj Ac].
    split; [exact Rj |]. intros R.
    rewrite <- (proj1 (current_code v R)). exact (Ac R).
  - destruct (guarded_setter_line e input st _ _ _ _ _ (fun v => v) v C V I
                execute_sm) as [Rj Ac].
    split; [exact Rj |]. intros R.
    rewrite Z.mul_1_r, Z.div_1_r. exact (Ac R).
  - destruct (guarded_setter_line e input st _ _ _ _ _ (fun v => v) v C V I
                execute_sf) as [Rj Ac].
    split; [exact Rj |]. intros R.
    rewrite Z.mul_1_r, Z.div_1_r. exact (Ac R).
  - destruct (guarded_setter_line e input st _ _ _ _ _ (fun v => v) v C V I
                execute_sw) as [Rj Ac].
    split; [exact Rj |]. intros R.
    rewrite Z.mul_1_r, Z.div_1_r. exact (Ac R).
Qed.

Lemma setter_guard_verb (g : setter_guard) :
  In g setter_guards ->
  contains " " (guard_verb g) = false /\ WString.length (guard_verb g) < 32767
  /\ guard_min g <= 0 <= guard_max g.
Proof.
  unfold setter_guards. cbn [In].
  intros [<- | [<- | [<- | [<- | [<- | []]]]]];
    repeat split; vm_compute; first [reflexivity | discriminate].
Qed.

(** X4: each of [sv], [sc], [sm], [sf] and [sw] checks its integer
    argument against its own bounds.  Outside them the store is left as it
    was and the error line of the setter is printed before the
    acknowledgement; inside them exactly one variable is written, with the
    scaled argument (times 4095 over the user range for [sv] and [sc], the
    argument itself for the others), and only the acknowledgement is
    printed. *)
Theorem guarded_setters (e : env) (input : string) (st : state)
    (g : setter_guard) (v : Z) :
  In g setter_guards -> is_int v -> sends (guard_verb g) v input ->
  Serial_input e = Some input ->
  (v < guard_min g \/ v > guard_max g ->
   run_state (read_commands e) st = st
   /\ run_out (read_commands e) st
      = [Serial_println (guard_message g); confirmation input])
  /\ (guard_min g <= v <= guard_max g ->
      run_state (read_commands e) st
      = assign (guard_variable g) (v * guard_num g / guard_den g) st
      /\ run_out (read_commands e) st = [confirmation input]).
Proof.
  intros G Iv Sd I.
  destruct (setter_guard_verb g G) as (S & L & _).
  destruct (sends_tokens (guard_verb g) v input S L Iv Sd) as [C V].
  apply guarded_setter_cases; assumption.
Qed.

(** [sf 51] in the initial state. *)
Lemma guarded_setters_witness :
  run_state (read_commands (line_env "sf 51")) initial_state = initial_state
  /\ run_out (read_commands (line_env "sf 51")) initial_state
     = [Serial_println "err: 1 Frequency out of bounds";
        confirmation "sf 51"].
Proof.
  destruct (guarded_setters (line_env "sf 51") "sf 51" initial_state
              {| guard_verb := "sf"; guard_variable := FREQ;
                 guard_min := FREQ_MIN; guard_max := FREQ_MAX;
                 guard_message := "err: 1 Frequency out of bounds";
                 guard_num := 1; guard_den := 1 |} 51)
    as [Rj _].
  - right; right; right; left. reflexivity.
  - int_range.
  - left. reflexivity.
  - reflexivity.
  - apply Rj. right. cbn [guard_max]. unfold FREQ_MAX. lia.
Defined.

(** ** Current round trip *)

Lemma map_output_current_quot (output : Z) :
  is_int output -> map_output_current output = Z.quot (output * 5000) 4095.
Proof.
  intros H. unfold map_output_current, CURRENT_MIN, CURRENT_MAX.
  apply map_from_zero; [exact H | lia | lia].
Qed.

Lemma current_read_back (c : Z) :
  CURRENT_MIN <= c <= CURRENT_MAX ->
  c - 2 <= map_output_current (c * 4095 / 5000) <= c.
Proof.
  intros H. destruct (current_code c H) as [_ B].
  unfold CURRENT_MIN, CURRENT_MAX in H.
  rewrite map_output_current_quot by int_range.
  rewrite Z.quot_div_nonneg by lia.
  pose proof (Z.div_mod (c * 4095) 5000 ltac:(lia)) as D1.
  pose proof (Z.mod_pos_bound (c * 4095) 5000 ltac:(lia)) as B1.
  revert D1 B1 B. generalize (c * 4095 / 5000). intros code D1 B1 B.
  pose proof (Z.div_mod (code * 5000) 4095 ltac:(lia)) as D2.
  pose proof (Z.mod_pos_bound (code * 5000) 4095 ltac:(lia)) as B2.
  lia.
Qed.

Section CurrentPasses.

Variable fpu : FloatUnit.

(** A pass in PSU mode with an accepted [sc]. *)
Lemma sc_pass (e : env) (input : string) (st : state) (c : Z) :
  st MODE = 0 -> Serial_input e = Some input -> command input = "sc" ->
  to_int (WString.toInt (value input)) = c ->
  CURRENT_MIN <= c <= CURRENT_MAX ->
  forall x,
    run_state (loop fpu e) st x
    = run_state (execute_psu_mode e)
        (assign CURRENT (c * 4095 / 5000) st) x.
Proof.
  intros M I C V R x.
  destruct (current_code c R) as [Ecode _].
  assert (S : run_state (read_commands e) st
              = assign CURRENT (c * 4095 / 5000) st).
  { destruct (read_commands_line e input st I) as [-> _].
    unfold run_state. rewrite C, execute_sc. cbv zeta.
    rewrite V, guarded_set_accept by exact R. rewrite Ecode. reflexivity. }
  destruct (loop_psu fpu e st) as [-> _].
  - rewrite S, assign_other by discriminate. exact M.
  - rewrite S. reflexivity.
Qed.

(** A pass in PSU mode with [gc] when nothing is pending. *)
Lemma gc_pass (e : env) (input : string) (st : state) :
  st MODE = 0 -> st VOLTAGE = st LAST_VOLTAGE ->
  st CURRENT = st LAST_CURRENT ->
  Serial_input e = Some input -> command input = "gc" ->
  run_out (loop fpu e) st
  = [Serial_println_float (map_output_current (st LAST_CURRENT));
     confirmation input].
Proof.
  intros M V C I G.
  assert (S : run_state (read_commands e) st = st).
  { destruct (read_commands_line e input st I) as [-> _].
    unfold run_state. rewrite G, execute_gc. reflexivity. }
  destruct (loop_psu fpu e st) as [_ ->]; [rewrite S; exact M |].
  rewrite S, execute_psu_mode_out, V, C, !Z.eqb_refl.
  destruct (read_commands_line e input st I) as [_ ->].
  unfold run_out. rewrite G, execute_gc. reflexivity.
Qed.

End CurrentPasses.

(** X5: for every current c in [0, 5000] mA, after a line that sends
    [sc] with the argument c and the PSU-mode update of the same pass,
    [gc] prints a value that is at most c and at least c - 2 mA; the code
    that was applied is the integer part of c * 4095 / 5000. *)
Theorem gc_after_applied_sc (fpu : FloatUnit) (e1 e2 : env)
    (input1 input2 : string) (st : state) (c : Z) :
  st MODE = 0 ->
  CURRENT_MIN <= c <= CURRENT_MAX ->
  sends "sc" c input1 -> Serial_input e1 = Some input1 ->
  command input2 = "gc" -> Serial_input e2 = Some input2 ->
  exists u,
    run_out (loop fpu e2) (run_state (loop fpu e1) st)
    = [Serial_println_float u; confirmation input2]
    /\ run_state (loop fpu e1) st LAST_CURRENT = c * 4095 / 5000
    /\ c - 2 <= u <= c.
Proof.
  intros M R Sd I1 C2 I2.
  assert (Ic : is_int c)
    by (unfold is_int, INT_MIN, INT_MAX, CURRENT_MIN, CURRENT_MAX in *; lia).
  destruct (sends_tokens "sc" c input1 eq_refl eq_refl Ic Sd) as [C1 V].
  pose proof (sc_pass fpu e1 input1 st c M I1 C1 V R) as F.
  assert (Lc : run_state (loop fpu e1) st LAST_CURRENT = c * 4095 / 5000).
  { rewrite F, execute_psu_mode_state. apply assign_same. }
  assert (Sc : run_state (loop fpu e1) st CURRENT = c * 4095 / 5000).
  { rewrite F, execute_psu_mode_state. apply assign_same. }
  assert (Lv : run_state (loop fpu e1) st VOLTAGE
               = run_state (loop fpu e1) st LAST_VOLTAGE).
  { rewrite !F, !execute_psu_mode_state.
    rewrite assign_other by discriminate. reflexivity. }
  assert (M1 : run_state (loop fpu e1) st MODE = 0).
  { rewrite F, execute_psu_mode_state, assign_other by discriminate.
    exact M. }
  exists (map_output_current (run_state (loop fpu e1) st LAST_CURRENT)).
  split; [| split].
  - apply gc_pass; [exact M1 | exact Lv | congruence | exact I2 | exact C2].
  - exact Lc.
  - rewrite Lc. apply current_read_back. exact R.
Qed.

(** [sc 4999] and then [gc], from the initial state: 4998 is printed. *)
Lemma gc_after_applied_sc_witness :
  exists u,
    run_out (loop idle_fpu (line_env "gc"))
      (run_state (loop idle_fpu (line_env "sc 4999")) initial_state)
    = [Serial_println_float u; confirmation "gc"]
    /\ run_state (loop idle_fpu (line_env "sc 4999")) initial_state
         LAST_CURRENT
       = 4999 * 4095 / 5000
    /\ 4999 - 2 <= u <= 4999.
Proof.
  apply (gc_after_applied_sc idle_fpu (line_env "sc 4999") (line_env "gc")
           "sc 4999" "gc" initial_state 4999).
  - reflexivity.
  - unfold CURRENT_MIN, CURRENT_MAX. lia.
  - left. reflexivity.
  - reflexivity.
  - reflexivity.
  - reflexivity.
Defined.

(** ** Lines and their arguments *)

(** X6: a line made of a verb without a space, one space and any
    argument text is cut at that first space, whatever spaces the
    argument holds, and its acknowledgement is the line followed by
    [ OK]. *)
Theorem line_splits_at_first_space (verb argument : string) :
  contains " " verb = false -> WString.length verb < 32767 ->
  command (verb ++ " " ++ argument) = verb
  /\ value (verb ++ " " ++ argument) = argument
  /\ confirmation (verb ++ " " ++ argument)
     = Serial_println ((verb ++ " " ++ argument) ++ " OK").
Proof.
  intros S L. destruct (tokens_of_line verb argument S L) as [C V].
  split; [exact C |]. split; [exact V |].
  unfold confirmation. rewrite C, V. f_equal.
  clear. induction verb as [| c verb IH]; cbn; [reflexivity |].
  f_equal. exact IH.
Qed.

(** The line [sv 1 2 3]. *)
Lemma line_splits_at_first_space_witness :
  command "sv 1 2 3" = "sv" /\ value "sv 1 2 3" = "1 2 3"
  /\ confirmation "sv 1 2 3" = Serial_println "sv 1 2 3 OK".
Proof.
  apply (line_splits_at_first_space "sv" "1 2 3");
    [reflexivity | vm_compute; reflexivity].
Defined.

Lemma skip_spaces_blank (blanks s : string) :
  all_blank blanks = true ->
  WString.skip_spaces (blanks ++ s) = WString.skip_spaces s.
Proof.
  induction blanks as [| c blanks IH]; cbn [all_blank append]; intros H.
  - reflexivity.
  - apply andb_prop in H. destruct H as [H1 H2].
    cbn [WString.skip_spaces]. rewrite H1. apply IH. exact H2.
Qed.

Lemma atol_blank (blanks s : string) :
  all_blank blanks = true -> WString.atol (blanks ++ s) = WString.atol s.
Proof.
  intros H. unfold WString.atol. rewrite skip_spaces_blank by exact H.
  reflexivity.
Qed.

Lemma decimal_digits_app (fuel : nat) :
  forall n r1 r2,
    decimal_digits fuel n (r1 ++ r2) = decimal_digits fuel n r1 ++ r2.
Proof.
  induction fuel as [| fuel IH]; intros n r1 r2; cbn [decimal_digits].
  - reflexivity.
  - destruct (n <? 10); [reflexivity |].
    rewrite <- IH. reflexivity.
Qed.

Lemma digits_stop (acc : Z) (rest : string) :
  stops_number rest = true -> WString.digits acc rest = acc.
Proof.
  destruct rest as [| c rest]; cbn; [reflexivity |].
  destruct (WString.isdigit c); [discriminate | reflexivity].
Qed.

Lemma decimal_digits_starts (fuel : nat) (n : Z) (rest : string) :
  0 <= n -> starts_with_digit (decimal_digits (S fuel) n rest).
Proof.
  intros N. cbn [decimal_digits].
  assert (H' : starts_with_digit (String (digit_char (n mod 10)) rest)).
  { exists (n mod 10), rest. pose proof (Z.mod_pos_bound n 10).
    split; [lia | reflexivity]. }
  destruct (n <? 10); [exact H' |].
  apply decimal_digits_head; [apply Z.div_pos; lia | exact H'].
Qed.

(** [toInt] reads a decimal text back whatever follows it, as long as
    that does not start with a digit. *)
Lemma toInt_decimal_then (v : Z) (rest : string) :
  -2147483648 <= v < 2147483648 -> stops_number rest = true ->
  WString.toInt (decimal v ++ rest) = v.
Proof.
  intros B R. unfold WString.toInt, decimal.
  destruct (Z.ltb_spec v 0) as [N | P].
  - cbn [append].
    rewrite <- (decimal_digits_app 10 (- v) "" rest). cbn [append].
    change (WString.atol (String "-" (decimal_digits 10 (- v) rest)))
      with (to_long (- WString.digits 0 (decimal_digits 10 (- v) rest))).
    rewrite digits_decimal_digits
      by (change (10 ^ Z.of_nat 10) with 10000000000; lia).
    rewrite digits_stop by exact R. rewrite to_long_id by lia. lia.
  - rewrite <- (decimal_digits_app 10 v "" rest). cbn [append].
    destruct (decimal_digits_starts 9 v rest P) as (d & s' & D & E).
    rewrite E, (proj2 (proj2 (digit_char_spec d D))), <- E.
    rewrite digits_decimal_digits
      by (change (10 ^ Z.of_nat 10) with 10000000000; lia).
    rewrite digits_stop by exact R. apply to_long_id. lia.
Qed.

(** X7: the argument of a command may be preceded by any white space and
    followed by any text that does not start with a digit, such as the
    carriage return that ends the line: the line still carries the same
    verb and the same integer. *)
Theorem argument_padding_is_ignored (verb blanks rest : string) (v : Z) :
  contains " " verb = false -> WString.length verb < 32767 -> is_int v ->
  all_blank blanks = true -> stops_number rest = true ->
  command (verb ++ " " ++ blanks ++ decimal v ++ rest) = verb
  /\ to_int (WString.toInt (value (verb ++ " " ++ blanks ++ decimal v ++ rest)))
     = v.
Proof.
  intros S L I B R.
  destruct (tokens_of_line verb (blanks ++ decimal v ++ rest) S L) as [C V].
  split; [exact C |].
  rewrite V. unfold WString.toInt. rewrite atol_blank by exact B.
  fold (WString.toInt (decimal v ++ rest)).
  rewrite toInt_decimal_then by (first [exact R | int_range]).
  apply to_int_id. exact I.
Qed.

(** [sv], three spaces, [-12] and a carriage return. *)
Lemma argument_padding_is_ignored_witness :
  command ("sv" ++ " " ++ "  " ++ decimal (-12) ++ String CR "") = "sv"
  /\ to_int
       (WString.toInt
          (value ("sv" ++ " " ++ "  " ++ decimal (-12) ++ String CR "")))
     = -12.
Proof.
  apply (argument_padding_is_ignored "sv" "  " (String CR "") (-12));
    first [reflexivity | vm_compute; reflexivity | int_range].
Defined.

(** [atol] with its three cases told apart by comparisons. *)
Lemma atol_cases (s : string) :
  WString.atol s
  = match WString.skip_spaces s with
    | EmptyString => 0
    | String c r =>
        if Ascii.eqb c "-" then to_long (- WString.digits 0 r)
        else if Ascii.eqb c "+" then to_long (WString.digits 0 r)
        else to_long (WString.digits 0 (String c r))
    end.
Proof.
  unfold WString.atol.
  destruct (WString.skip_spaces s) as [| c r]; [reflexivity |].
  destruct c as [[] [] [] [] [] [] [] []]; reflexivity.
Qed.

(** A text with no number at its start converts to 0. *)
Lemma toInt_number_free (s : string) :
  number_free s = true -> WString.toInt s = 0.
Proof.
  unfold WString.toInt, number_free. rewrite atol_cases.
  destruct (WString.skip_spaces s) as [| c r]; [reflexivity |].
  destruct (Ascii.eqb c "-"); cbn [orb].
  - intros H. rewrite digits_stop by exact H. reflexivity.
  - destruct (Ascii.eqb c "+"); cbn [orb].
    + intros H. rewrite digits_stop by exact H. reflexivity.
    + intros H. cbn [WString.digits].
      destruct (WString.isdigit c); [discriminate | reflexivity].
Qed.

(** X8: an argument text with no number at its start (after leading
    white space and an optional sign there is no digit) is not refused:
    it converts to 0, which is within the bounds of each of [sv], [sc],
    [sm], [sf] and [sw], so the setter stages 0 and prints only the
    acknowledgement. *)
Theorem text_argument_stages_zero (e : env) (st : state)
    (g : setter_guard) (argument : string) :
  In g setter_guards -> number_free argument = true ->
  Serial_input e = Some (guard_verb g ++ " " ++ argument) ->
  to_int (WString.toInt argument) = 0
  /\ run_state (read_commands e) st = assign (guard_variable g) 0 st
  /\ run_out (read_commands e) st
     = [Serial_println ((guard_verb g ++ " " ++ argument) ++ " OK")].
Proof.
  intros G N I.
  destruct (setter_guard_verb g G) as (S & L & B).
  destruct (tokens_of_line (guard_verb g) argument S L) as [C V].
  assert (Z0 : to_int (WString.toInt argument) = 0)
    by (rewrite toInt_number_free by exact N; reflexivity).
  split; [exact Z0 |].
  destruct (guarded_setter_cases e (guard_verb g ++ " " ++ argument) st g 0
              G C) as [_ Ac]; [rewrite V; exact Z0 | exact I |].
  destruct (Ac B) as [Es Eo]. rewrite Es, Eo. split; [reflexivity |].
  unfold confirmation. rewrite C, V. do 2 f_equal.
  clear. induction (guard_verb g) as [| c verb IH]; cbn; [reflexivity |].
  f_equal. exact IH.
Qed.

(** [sv abc] after [sv 1000]: the staged code goes from 136 to 0. *)
Lemma text_argument_stages_zero_witness :
  to_int (WString.toInt "abc") = 0
  /\ run_state (read_commands (line_env "sv abc")) (after_lines ["sv 1000"])
     = assign VOLTAGE 0 (after_lines ["sv 1000"])
  /\ run_out (read_commands (line_env "sv abc")) (after_lines ["sv 1000"])
     = [Serial_println "sv abc OK"].
Proof.
  apply (text_argument_stages_zero (line_env "sv abc")
           (after_lines ["sv 1000"])
           {| guard_verb := "sv"; guard_variable := VOLTAGE;
              guard_min := VOLTAGE_MIN; guard_max := VOLTAGE_MAX;
              guard_message := "err: 1 Voltage out of bounds";
              guard_num := 4095; guard_den := 30000 |} "abc").
  - left. reflexivity.
  - reflexivity.
  - reflexivity.
Defined.

(** ** The carriage return *)

Lemma contains_append (ch : ascii) (a b : string) :
  contains ch (a ++ b) = contains ch a || contains ch b.
Proof.
  induction a as [| c a IH]; cbn; [reflexivity |].
  rewrite IH. apply orb_assoc.
Qed.

Lemma verbs_are_short (verb : string) :
  In verb verbs ->
  contains " " verb = false /\ WString.length verb <= 2
  /\ forall tail, recognized (verb ++ String CR tail) = false.
Proof.
  unfold verbs. cbn [In]. intros H.
  repeat (destruct H as [<- | H];
          [split; [reflexivity |]; split; [vm_compute; discriminate |];
           intros tail; reflexivity |]).
  contradiction.
Qed.

(** X9: when the line read holds one of the sixteen verbs directly
    followed by a carriage return (and no space), the carriage return is
    part of the command: the verb is not recognised, the store is left as
    it was, and the reply is the unknown-command line and the
    acknowledgement. *)
Theorem carriage_return_hides_the_verb (e : env) (st : state)
    (verb tail : string) :
  In verb verbs -> contains " " tail = false ->
  WString.length tail <= 65000 ->
  Serial_input e = Some (verb ++ String CR tail) ->
  command (verb ++ String CR tail) = verb ++ String CR tail
  /\ run_state (read_commands e) st = st
  /\ run_out (read_commands e) st
     = [Serial_println
          ("err: Unknown command " ++ (verb ++ String CR tail) ++ "!");
        confirmation (verb ++ String CR tail)].
Proof.
  intros H T L I.
  destruct (verbs_are_short verb H) as (S & Lv & U).
  assert (Sl : contains " " (verb ++ String CR tail) = false).
  { rewrite contains_append, S. cbn. exact T. }
  assert (Ll : WString.length (verb ++ String CR tail) <= 65535).
  { unfold WString.length in *. rewrite length_append.
    cbn [String.length]. lia. }
  destruct (tokens_without_space _ Sl Ll) as [C V].
  split; [exact C |].
  destruct (read_commands_line e _ st I) as [-> ->].
  unfold run_state, run_out.
  rewrite execute_unknown by (rewrite C; apply U).
  rewrite C. split; reflexivity.
Qed.

(** The line [gv] with its carriage return. *)
Lemma carriage_return_hides_the_verb_witness :
  command (String "g" (String "v" (String CR ""))) 
  = String "g" (String "v" (String CR ""))
  /\ run_state (read_commands (line_env (String "g" (String "v" (String CR "")))))
       initial_state
     = initial_state
  /\ run_out (read_commands (line_env (String "g" (String "v" (String CR "")))))
       initial_state
     = [Serial_println
          ("err: Unknown command "
           ++ (String "g" (String "v" (String CR ""))) ++ "!");
        confirmation (String "g" (String "v" (String CR "")))].
Proof.
  apply (carriage_return_hides_the_verb
           (line_env (String "g" (String "v" (String CR ""))))
           initial_state "gv" "").
  - cbn. tauto.
  - reflexivity.
  - vm_compute. discriminate.
  - reflexivity.
Defined.

(** ** Ranges of the settings and of the DAC codes *)

Lemma guarded_set_settings (lo hi : Z) (msg : string) (x : global)
    (v w : Z) (st : state) :
  settings_ok st ->
  (lo <= v <= hi -> settings_ok (assign x w st)) ->
  settings_ok (snd (fst (guarded_set lo hi msg x v w st))).
Proof.
  intros S A.
  destruct (guarded_set_state lo hi msg x v w st) as [-> | [B ->]];
    [exact S | exact (A B)].
Qed.

(** A command keeps the settings within their bounds. *)
Lemma execute_command_settings (command value : string) (st : state) :
  settings_ok st -> settings_ok (run_state (execute_command command value) st).
Proof.
  intros S.
  destruct (existsb (String.eqb command) setters) eqn:E.
  - unfold setters in E. cbn [existsb] in E. unfold run_state.
    repeat (apply orb_prop in E; destruct E as [E | E]);
      try discriminate; apply String.eqb_eq in E; subst command.
    + rewrite execute_sv. cbv zeta. apply guarded_set_settings; [exact S |].
      intros B. destruct (voltage_code _ B) as [-> C].
      unfold settings_ok, code_ok, assign in *. cbn [global_beq]. tauto.
    + rewrite execute_sc. cbv zeta. apply guarded_set_settings; [exact S |].
      intros B. destruct (current_code _ B) as [-> C].
      unfold settings_ok, code_ok, assign in *. cbn [global_beq]. tauto.
    + rewrite execute_sm. cbv zeta. apply guarded_set_settings; [exact S |].
      intros B. unfold settings_ok, code_ok, assign in *. cbn [global_beq].
      tauto.
    + rewrite execute_sf. cbv zeta. apply guarded_set_settings; [exact S |].
      intros B. unfold settings_ok, code_ok, assign in *. cbn [global_beq].
      tauto.
    + rewrite execute_sa.
      destruct (sum_guarded_set_state AMP OFFSET (staged_code value) st)
        as [-> | [_ ->]]; [exact S |].
      unfold settings_ok, code_ok, assign in *. cbn [global_beq]. tauto.
    + rewrite execute_so.
      destruct (sum_guarded_set_state OFFSET AMP (staged_code value) st)
        as [-> | [_ ->]]; [exact S |].
      unfold settings_ok, code_ok, assign in *. cbn [global_beq]. tauto.
    + rewrite execute_sw. cbv zeta. apply guarded_set_settings; [exact S |].
      intros B. unfold settings_ok, code_ok, assign in *. cbn [global_beq].
      tauto.
  - rewrite execute_command_no_setter by exact E. exact S.
Qed.

Lemma read_commands_settings (e : env) (st : state) :
  settings_ok st -> settings_ok (run_state (read_commands e) st).
Proof.
  intros S. destruct (Serial_input e) as [input |] eqn:I.
  - destruct (read_commands_line e input st I) as [-> _].
    apply execute_command_settings. exact S.
  - unfold run_state. rewrite read_commands_idle by exact I. exact S.
Qed.

Section Ranges.

Variable fpu : FloatUnit.

Lemma loop_settings (e : env) (st : state) :
  settings_ok st -> settings_ok (run_state (loop fpu e) st).
Proof.
  intros S. pose proof (read_commands_settings e st S) as S1.
  destruct (loop_run fpu e st) as [-> _].
  destruct (_ =? 0); [| destruct (_ =? 1)].
  - unfold settings_ok in *. rewrite !execute_psu_mode_state. tauto.
  - unfold settings_ok in *.
    rewrite !execute_function_generator_mode_state. tauto.
  - exact S1.
Qed.

Lemma reachable_settings (st : state) : reachable fpu st -> settings_ok st.
Proof.
  induction 1 as [e | e st R IH].
  - unfold settings_ok, code_ok, FREQ_MIN, FREQ_MAX, WAVEFORM_MIN,
      WAVEFORM_MAX. cbn. lia.
  - apply loop_settings. exact IH.
Qed.

End Ranges.

(** X10: in every reachable state the staged and last-applied voltage and
    current are native codes in [0, 4095], the frequency is within
    [0, 50] and the waveform within [0, 3].  Hence every code a pass
    writes to the current DAC lies in [0, 4095], and so does every code a
    pass in PSU mode writes to the voltage DAC. *)
Theorem reachable_settings_in_range (fpu : FloatUnit) (e : env)
    (st : state) :
  reachable fpu st ->
  settings_ok st
  /\ Forall code_ok (current_dac_writes (run_out (loop fpu e) st))
  /\ (run_state (read_commands e) st MODE = 0 ->
      Forall code_ok (voltage_dac_writes (run_out (loop fpu e) st))).
Proof.
  intros R. pose proof (reachable_settings fpu st R) as S.
  pose proof (read_commands_settings e st S) as (V & _ & C & _).
  destruct (read_commands_no_dac e st) as [Nv Nc].
  split; [exact S |].
  destruct (loop_run fpu e st) as [_ ->].
  rewrite voltage_dac_writes_app, current_dac_writes_app, Nv, Nc.
  cbn [app]. split.
  - destruct (_ =? 0); [| destruct (_ =? 1)].
    + rewrite (proj2 (psu_writes e (run_state (read_commands e) st))).
      destruct (_ =? _); repeat constructor; apply C.
    + rewrite execute_function_generator_mode_out.
      destruct (_ =? 1); constructor.
    + constructor.
  - intros M. rewrite M. cbn [Z.eqb].
    rewrite (proj1 (psu_writes e (run_state (read_commands e) st))).
    destruct (_ =? _); repeat constructor; apply V.
Qed.

(** [sc 2500] after [sc 5000]. *)
Lemma reachable_settings_in_range_witness :
  settings_ok (after_lines ["sc 5000"])
  /\ Forall code_ok
       (current_dac_writes
          (run_out (loop idle_fpu (line_env "sc 2500"))
             (after_lines ["sc 5000"]))).
Proof.
  destruct (reachable_settings_in_range idle_fpu (line_env "sc 2500")
              (after_lines ["sc 5000"])
              (after_lines_reachable ["sc 5000"]))
    as (S & C & _).
  split; [exact S | exact C].
Defined.

(** ** What a pass applies *)

Section Applied.

Variable fpu : FloatUnit.

(** The mode a pass ends in is the mode its command left. *)
Lemma loop_mode (e : env) (st : state) :
  run_state (loop fpu e) st MODE = run_state (read_commands e) st MODE.
Proof. apply loop_keeps_settings. cbn [In]. tauto. Qed.

(** A pass whose command leaves the sketch in function-generator mode. *)
Lemma loop_function_generator (e : env) (st : state) :
  run_state (read_commands e) st MODE = 1 ->
  run_state (loop fpu e) st
  = run_state (execute_function_generator_mode fpu e)
      (run_state (read_commands e) st)
  /\ run_out (loop fpu e) st
     = (run_out (read_commands e) st
        ++ run_out (execute_function_generator_mode fpu e)
             (run_state (read_commands e) st))%list.
Proof.
  intros H. destruct (loop_run fpu e st) as [S O].
  rewrite S, O, H. split; reflexivity.
Qed.

Lemma read_commands_keeps_applied (e : env) (st : state) (x : global) :
  In x applied_or_measured -> run_state (read_commands e) st x = st x.
Proof.
  intros X.
  destruct (read_commands_effect e st); try reflexivity;
    apply assign_other; unfold applied_or_measured in X; cbn [In] in X;
    intuition (subst; discriminate).
Qed.

End Applied.

(** X11: a pass reconciles the settings of the mode it ends in, and only
    those.  Ending in PSU mode, the last-applied voltage and current equal
    the staged ones and the four last-applied waveform settings are what
    they were before the pass; ending in function-generator mode, the
    last-applied frequency, amplitude, offset and waveform equal the
    staged ones and the last-applied voltage and current are what they
    were. *)
Theorem pass_applies_active_mode (fpu : FloatUnit) (e : env) (st : state) :
  let st' := run_state (loop fpu e) st in
  (st' MODE = 0 ->
   st' LAST_VOLTAGE = st' VOLTAGE /\ st' LAST_CURRENT = st' CURRENT
   /\ st' LAST_FREQ = st LAST_FREQ /\ st' LAST_AMP = st LAST_AMP
   /\ st' LAST_OFFSET = st LAST_OFFSET
   /\ st' LAST_WAVEFORM = st LAST_WAVEFORM)
  /\ (st' MODE = 1 ->
      st' LAST_FREQ = st' FREQ /\ st' LAST_AMP = st' AMP
      /\ st' LAST_OFFSET = st' OFFSET /\ st' LAST_WAVEFORM = st' WAVEFORM
      /\ st' LAST_VOLTAGE = st LAST_VOLTAGE
      /\ st' LAST_CURRENT = st LAST_CURRENT).
Proof.
  cbv zeta. rewrite loop_mode. split; intros M.
  - destruct (loop_psu fpu e st M) as [-> _].
    rewrite !execute_psu_mode_state.
    repeat split; apply read_commands_keeps_applied;
      unfold applied_or_measured; cbn [In]; tauto.
  - destruct (loop_function_generator fpu e st M) as [-> _].
    rewrite !execute_function_generator_mode_state.
    repeat split; apply read_commands_keeps_applied;
      unfold applied_or_measured; cbn [In]; tauto.
Qed.

(** ** Switching the mode *)

(** X12: a line that sends [sm] with 0 or 1 sets the mode and nothing
    else: after the pass every staged setting (voltage, current,
    frequency, amplitude, offset, waveform) is what it was, and [gm] then
    prints the new mode. *)
Theorem mode_switch_keeps_settings (fpu : FloatUnit) (e1 e2 : env)
    (input1 input2 : string) (st : state) (m : Z) :
  0 <= m <= 1 -> sends "sm" m input1 -> Serial_input e1 = Some input1 ->
  command input2 = "gm" -> Serial_input e2 = Some input2 ->
  run_state (loop fpu e1) st MODE = m
  /\ (forall x, In x [VOLTAGE; CURRENT; FREQ; AMP; OFFSET; WAVEFORM] ->
                run_state (loop fpu e1) st x = st x)
  /\ run_out (read_commands e2) (run_state (loop fpu e1) st)
     = [Serial_println_int m; confirmation input2].
Proof.
  intros B Sd I1 C2 I2.
  assert (Im : is_int m) by int_range.
  destruct (sends_tokens "sm" m input1 eq_refl eq_refl Im Sd) as [C1 V].
  assert (S : run_state (read_commands e1) st = assign MODE m st).
  { destruct (read_commands_line e1 input1 st I1) as [-> _].
    unfold run_state. rewrite C1, execute_sm. cbv zeta.
    rewrite V, guarded_set_accept by exact B. reflexivity. }
  assert (M : run_state (loop fpu e1) st MODE = m).
  { rewrite loop_mode, S. apply assign_same. }
  split; [exact M |]. split.
  - intros x X. rewrite loop_keeps_settings by (cbn [In] in *; tauto).
    rewrite S. apply assign_other. cbn [In] in X.
    intuition (subst; discriminate).
  - destruct (read_commands_line e2 input2 (run_state (loop fpu e1) st) I2)
      as [_ ->].
    unfold run_out. rewrite C2, execute_gm, M. reflexivity.
Qed.

(** [sm 1] after [sv 1000], then [gm]. *)
Lemma mode_switch_keeps_settings_witness :
  run_state (loop idle_fpu (line_env "sm 1")) (after_lines ["sv 1000"]) MODE
  = 1
  /\ run_state (loop idle_fpu (line_env "sm 1")) (after_lines ["sv 1000"])
       VOLTAGE
     = after_lines ["sv 1000"] VOLTAGE
  /\ run_out (read_commands (line_env "gm"))
       (run_state (loop idle_fpu (line_env "sm 1")) (after_lines ["sv 1000"]))
     = [Serial_println_int 1; confirmation "gm"].
Proof.
  destruct (mode_switch_keeps_settings idle_fpu (line_env "sm 1")
              (line_env "gm") "sm 1" "gm" (after_lines ["sv 1000"]) 1)
    as (M & K & G).
  - lia.
  - left. reflexivity.
  - reflexivity.
  - reflexivity.
  - reflexivity.
  - split; [exact M |]. split; [| exact G].
    apply K. cbn [In]. tauto.
Defined.

(** ** Frequency: applied at once in function-generator mode only *)

(** X13: a line that sends [sf] with a frequency in [0, 50] stages it.
    Read in function-generator mode, the frequency is applied by the same
    pass and [gf] then prints it exactly; read in PSU mode, nothing
    applies it and [gf] keeps printing the frequency applied before. *)
Theorem gf_after_sf (fpu : FloatUnit) (e1 e2 : env)
    (input1 input2 : string) (st : state) (v : Z) :
  FREQ_MIN <= v <= FREQ_MAX ->
  sends "sf" v input1 -> Serial_input e1 = Some input1 ->
  command input2 = "gf" -> Serial_input e2 = Some input2 ->
  run_state (loop fpu e1) st FREQ = v
  /\ (st MODE = 1 ->
      run_out (read_commands e2) (run_state (loop fpu e1) st)
      = [Serial_println_int v; confirmation input2])
  /\ (st MODE = 0 ->
      run_out (read_commands e2) (run_state (loop fpu e1) st)
      = [Serial_println_int (st LAST_FREQ); confirmation input2]).
Proof.
  intros B Sd I1 C2 I2.
  assert (Iv : is_int v) by (unfold FREQ_MIN, FREQ_MAX in B; int_range).
  destruct (sends_tokens "sf" v input1 eq_refl eq_refl Iv Sd) as [C1 V].
  assert (S : run_state (read_commands e1) st = assign FREQ v st).
  { destruct (read_commands_line e1 input1 st I1) as [-> _].
    unfold run_state. rewrite C1, execute_sf. cbv zeta.
    rewrite V, guarded_set_accept by exact B. reflexivity. }
  assert (G : forall st1,
             run_out (read_commands e2) st1
             = [Serial_println_int (st1 LAST_FREQ); confirmation input2]).
  { intros st1. destruct (read_commands_line e2 input2 st1 I2) as [_ ->].
    unfold run_out. rewrite C2, execute_gf. reflexivity. }
  split; [| split].
  - rewrite loop_keeps_settings by (cbn [In]; tauto).
    rewrite S. apply assign_same.
  - intros M. rewrite G. do 2 f_equal.
    destruct (loop_function_generator fpu e1 st) as [-> _].
    + rewrite S, assign_other by discriminate. exact M.
    + rewrite execute_function_generator_mode_state, S. apply assign_same.
  - intros M. rewrite G. do 2 f_equal.
    destruct (loop_psu fpu e1 st) as [-> _].
    + rewrite S, assign_other by discriminate. exact M.
    + rewrite execute_psu_mode_state, S. apply assign_other. discriminate.
Qed.

(** [sf 25] read in function-generator mode, then [gf]. *)
Lemma gf_after_sf_witness :
  run_out (read_commands (line_env "gf"))
    (run_state (loop idle_fpu (line_env "sf 25")) (after_lines ["sm 1"]))
  = [Serial_println_int 25; confirmation "gf"].
Proof.
  destruct (gf_after_sf idle_fpu (line_env "sf 25") (line_env "gf")
              "sf 25" "gf" (after_lines ["sm 1"]) 25)
    as (_ & A & _).
  - unfold FREQ_MIN, FREQ_MAX. lia.
  - left. reflexivity.
  - reflexivity.
  - reflexivity.
  - reflexivity.
  - apply A. vm_compute. reflexivity.
Defined.

(** ** Coming back to PSU mode *)

(** X14: in function-generator mode every pass writes the waveform sample
    to the voltage DAC.  When the sketch is then sent back to PSU mode
    with nothing pending (the staged voltage and current equal the
    last-applied ones), the pass that reads [sm 0] writes no DAC at all:
    the voltage DAC keeps the last waveform sample, and the staged
    voltage is not written again. *)
Theorem return_to_psu_writes_nothing (fpu : FloatUnit) (e1 e2 : env)
    (input : string) (st : state) :
  st MODE = 1 ->
  st VOLTAGE = st LAST_VOLTAGE -> st CURRENT = st LAST_CURRENT ->
  Serial_input e1 = None ->
  sends "sm" 0 input -> Serial_input e2 = Some input ->
  voltage_dac_writes (run_out (loop fpu e1) st)
  = [waveform_output fpu e1 (st WAVEFORM) (st FREQ) (st AMP) (st OFFSET)]
  /\ run_state (loop fpu e2) (run_state (loop fpu e1) st) MODE = 0
  /\ run_out (loop fpu e2) (run_state (loop fpu e1) st) = [confirmation input].
Proof.
  intros M V C I1 Sd I2.
  assert (R1 : read_commands e1 st = (tt, st, []))
    by (apply read_commands_idle; exact I1).
  assert (S1 : run_state (read_commands e1) st = st)
    by (unfold run_state; rewrite R1; reflexivity).
  destruct (loop_function_generator fpu e1 st) as [E1 O1];
    [rewrite S1; exact M |].
  rewrite S1 in E1, O1.
  split.
  { rewrite O1. unfold run_out at 1. rewrite R1. cbn [snd app].
    rewrite execute_function_generator_mode_out.
    destruct (_ =? 1); reflexivity. }
  rewrite E1. set (st1 := run_state (execute_function_generator_mode fpu e1) st).
  assert (F : forall x, st1 x
                        = run_state (execute_function_generator_mode fpu e1) st x)
    by reflexivity.
  destruct (sends_tokens "sm" 0 input eq_refl eq_refl ltac:(int_range) Sd)
    as [Cm Vm].
  assert (S2 : run_state (read_commands e2) st1 = assign MODE 0 st1).
  { destruct (read_commands_line e2 input st1 I2) as [-> _].
    unfold run_state. rewrite Cm, execute_sm. cbv zeta.
    rewrite Vm, guarded_set_accept by lia. reflexivity. }
  assert (O2 : run_out (read_commands e2) st1 = [confirmation input]).
  { destruct (read_commands_line e2 input st1 I2) as [_ ->].
    unfold run_out. rewrite Cm, execute_sm. cbv zeta.
    rewrite Vm, guarded_set_accept by lia. reflexivity. }
  destruct (loop_psu fpu e2 st1) as [E2 P2];
    [rewrite S2; apply assign_same |].
  split.
  - rewrite loop_mode, S2. apply assign_same.
  - rewrite P2, O2, S2, execute_psu_mode_out.
    rewrite !(assign_other MODE) by discriminate.
    rewrite (F VOLTAGE), (F LAST_VOLTAGE), (F CURRENT), (F LAST_CURRENT).
    rewrite !execute_function_generator_mode_state, V, C, !Z.eqb_refl.
    reflexivity.
Qed.

(** An idle pass in function-generator mode, then [sm 0]. *)
Lemma return_to_psu_writes_nothing_witness :
  run_out (loop idle_fpu (line_env "sm 0"))
    (run_state (loop idle_fpu idle_env) (after_lines ["sv 1000"; "sm 1"]))
  = [confirmation "sm 0"].
Proof.
  destruct (return_to_psu_writes_nothing idle_fpu idle_env (line_env "sm 0")
              "sm 0" (after_lines ["sv 1000"; "sm 1"]))
    as (_ & _ & O).
  - vm_compute. reflexivity.
  - vm_compute. reflexivity.
  - vm_compute. reflexivity.
  - reflexivity.
  - left. reflexivity.
  - reflexivity.
  - exact O.
Defined.

(** ** The current DAC and its last-applied variable *)

(** X15: over any run, from [setup] through any number of passes in any
    mode, the last code written to the current DAC is the value of
    [LAST_CURRENT]: the variable always tells what the hardware holds. *)
Theorem last_current_is_on_the_dac (fpu : FloatUnit) (out : list event)
    (st : state) :
  history fpu out st ->
  current_dac_writes out <> []
  /\ last (current_dac_writes out) 0 = st LAST_CURRENT.
Proof.
  induction 1 as [e | e out st H [N L]].
  - split; [discriminate | reflexivity].
  - rewrite current_dac_writes_app.
    destruct (loop_run fpu e st) as [S O]. cbv zeta in S, O.
    rewrite O, current_dac_writes_app.
    rewrite (proj2 (read_commands_no_dac e st)). cbn [app].
    assert (K : run_state (read_commands e) st LAST_CURRENT = st LAST_CURRENT)
      by (apply read_commands_keeps_applied; unfold applied_or_measured;
          cbn [In]; tauto).
    rewrite S.
    destruct (_ =? 0); [| destruct (_ =? 1)].
    + rewrite (proj2 (psu_writes e (run_state (read_commands e) st))).
      rewrite execute_psu_mode_state, K.
      destruct (Z.eqb_spec (run_state (read_commands e) st CURRENT)
                  (st LAST_CURRENT)) as [E | E].
      * rewrite app_nil_r. split; [exact N | congruence].
      * split; [intros A; apply app_eq_nil in A; destruct A; discriminate |].
        apply last_last.
    + rewrite execute_function_generator_mode_out,
        execute_function_generator_mode_state, K.
      destruct (_ =? 1); cbn [current_dac_writes]; rewrite app_nil_r;
        split; assumption.
    + cbn [current_dac_writes]. rewrite app_nil_r, K. split; assumption.
Qed.

(** [setup] and then a pass reading [sc 5000]. *)
Lemma last_current_is_on_the_dac_witness :
  last
    (current_dac_writes
       (run_out (setup idle_env) initial_state
        ++ run_out (loop idle_fpu (line_env "sc 5000"))
             (run_state (setup idle_env) initial_state)))
    0
  = 4095.
Proof.
  rewrite (proj2 (last_current_is_on_the_dac idle_fpu _ _
                    (history_loop idle_fpu (line_env "sc 5000") _ _
                       (history_setup idle_fpu idle_env)))).
  vm_compute. reflexivity.
Defined.

(** ** The remote-shutdown pin *)

Lemma shutdown_writes_app (out1 out2 : list event) :
  shutdown_writes (out1 ++ out2)
  = (shutdown_writes out1 ++ shutdown_writes out2)%list.
Proof.
  induction out1 as [| ev out1 IH]; [reflexivity |].
  destruct ev; cbn [app shutdown_writes]; rewrite ?IH; try reflexivity.
  destruct (pin =? RSD_PIN); reflexivity.
Qed.

Lemma execute_command_shutdown (command value : string) (st : state) :
  shutdown_writes (run_out (execute_command command value) st)
  = if (command =? "r")%string then [HIGH]
    else if (command =? "s")%string then [LOW] else [].
Proof.
  unfold run_out.
  destruct (String.eqb_spec command "r") as [-> | Nr]; [reflexivity |].
  destruct (String.eqb_spec command "s") as [-> | Ns]; [reflexivity |].
  apply String.eqb_neq in Nr, Ns.
  destruct (existsb (String.eqb command) setters) eqn:S.
  - unfold setters in S. cbn [existsb] in S.
    repeat (apply orb_prop in S; destruct S as [S | S]);
      try discriminate; apply String.eqb_eq in S; subst command;
      rewrite ?execute_sv, ?execute_sc, ?execute_sm, ?execute_sf,
        ?execute_sa, ?execute_so, ?execute_sw; cbv zeta;
      match goal with
      | |- context [guarded_set ?lo ?hi ?msg ?x ?v ?w ?st] =>
          destruct (guarded_set_out lo hi msg x v w st) as [-> | ->]
      | |- context [sum_guarded_set ?x ?o ?w ?st] =>
          destruct (sum_guarded_set_out x o w st) as [-> | ->]
      end; reflexivity.
  - unfold setters in S. cbn [existsb] in S.
    repeat (apply orb_false_elim in S; destruct S as [?E S]).
    unfold execute_command. rewrite Nr, Ns.
    repeat match goal with
           | E : (command =? ?v)%string = false |- _ => rewrite E; clear E
           end.
    repeat match goal with
           | |- context [(command =? ?v)%string] =>
               destruct (command =? v)%string; [reflexivity |]
           end.
    reflexivity.
Qed.

(** X16: in either mode, a pass writes the remote-shutdown pin only when
    the command read is [r], which writes HIGH, or [s], which writes LOW;
    no other command and neither mode update touches the pin, and [r] and
    [s] leave the store to the mode update as they found it. *)
Theorem shutdown_pin_follows_r_and_s (fpu : FloatUnit) (e : env)
    (st : state) :
  shutdown_writes (run_out (loop fpu e) st)
  = match Serial_input e with
    | Some input =>
        if (command input =? "r")%string then [HIGH]
        else if (command input =? "s")%string then [LOW] else []
    | None => []
    end
  /\ forall input, Serial_input e = Some input ->
                   command input = "r" \/ command input = "s" ->
                   run_state (read_commands e) st = st.
Proof.
  split.
  - destruct (loop_run fpu e st) as [_ ->].
    rewrite shutdown_writes_app.
    assert (U : shutdown_writes
                  (if run_state (read_commands e) st MODE =? 0
                   then run_out (execute_psu_mode e)
                          (run_state (read_commands e) st)
                   else if run_state (read_commands e) st MODE =? 1
                        then run_out (execute_function_generator_mode fpu e)
                               (run_state (read_commands e) st)
                        else [Serial_println "err: 0 Unknown mode"])
                = []).
    { destruct (_ =? 0); [| destruct (_ =? 1)].
      - rewrite execute_psu_mode_out.
        destruct (_ =? _); destruct (_ =? _); reflexivity.
      - rewrite execute_function_generator_mode_out.
        destruct (_ =? 1); reflexivity.
      - reflexivity. }
    rewrite U, app_nil_r.
    destruct (Serial_input e) as [input |] eqn:I.
    + destruct (read_commands_line e input st I) as [_ ->].
      rewrite shutdown_writes_app, execute_command_shutdown.
      unfold confirmation. cbn [shutdown_writes]. apply app_nil_r.
    + unfold run_out. rewrite read_commands_idle by exact I. reflexivity.
  - intros input I [C | C];
      destruct (read_commands_line e input st I) as [-> _];
      rewrite C; reflexivity.
Qed.

(** ** Amplitude and offset in function-generator mode *)

Section AmplitudeOffset.

Variable fpu : FloatUnit.

(** A pass in function-generator mode with an [sa] or [so] line whose
    code passes the sum check: the code is staged and applied. *)
Lemma sum_setter_pass (e : env) (input verb : string) (st : state)
    (x other last : global) (v : Z) :
  In (verb, x, other, last)
     [("sa", AMP, OFFSET, LAST_AMP); ("so", OFFSET, AMP, LAST_OFFSET)] ->
  reachable fpu st -> st MODE = 1 ->
  VOLTAGE_MIN <= v <= VOLTAGE_MAX ->
  command input = verb -> to_int (WString.toInt (value input)) = v ->
  Serial_input e = Some input ->
  v * 4095 / 30000 + st other <= 4095 ->
  run_state (loop fpu e) st last = v * 4095 / 30000
  /\ run_state (loop fpu e) st x = v * 4095 / 30000.
Proof.
  intros T R M B C V I S.
  destruct (reachable_invariant fpu st R) as (_ & A & O & _).
  destruct (voltage_code v B) as [Ecode Bcode].
  assert (Sc : staged_code (value input) = v * 4095 / 30000)
    by (unfold staged_code; rewrite V; exact Ecode).
  cbn [In] in T. destruct T as [T | [T | []]]; injection T as <- <- <- <-.
  - assert (E : run_state (read_commands e) st
                = assign AMP (v * 4095 / 30000) st).
    { destruct (read_commands_line e input st I) as [-> _].
      unfold run_state.
      rewrite C, execute_sa, Sc, sum_guarded_set_accept
        by (first [exact S | int_range]).
      reflexivity. }
    destruct (loop_function_generator fpu e st) as [-> _].
    + rewrite E, assign_other by discriminate. exact M.
    + rewrite !execute_function_generator_mode_state, E.
      split; apply assign_same.
  - assert (E : run_state (read_commands e) st
                = assign OFFSET (v * 4095 / 30000) st).
    { destruct (read_commands_line e input st I) as [-> _].
      unfold run_state.
      rewrite C, execute_so, Sc, sum_guarded_set_accept
        by (first [exact S | int_range]).
      reflexivity. }
    destruct (loop_function_generator fpu e st) as [-> _].
    + rewrite E, assign_other by discriminate. exact M.
    + rewrite !execute_function_generator_mode_state, E.
      split; apply assign_same.
Qed.

End AmplitudeOffset.

(** X17: in function-generator mode, from a reachable state, a line that
    sends [sa] (or [so]) with a value v in [0, 30000] whose code, the
    integer part of v * 4095 / 30000, plus the stored code of the other
    field is at most 4095 is accepted and applied by the same pass; [ga]
    (or [go]) then prints a value that is at most v and at least
    v - 8 mV. *)
Theorem ga_go_after_applied (fpu : FloatUnit) (e1 e2 : env)
    (input1 input2 : string) (st : state) (v : Z) :
  reachable fpu st -> st MODE = 1 ->
  VOLTAGE_MIN <= v <= VOLTAGE_MAX ->
  Serial_input e1 = Some input1 -> Serial_input e2 = Some input2 ->
  (sends "sa" v input1 -> v * 4095 / 30000 + st OFFSET <= 4095 ->
   command input2 = "ga" ->
   exists u,
     run_out (read_commands e2) (run_state (loop fpu e1) st)
     = [Serial_println_float u; confirmation input2]
     /\ run_state (loop fpu e1) st AMP = v * 4095 / 30000
     /\ v - 8 <= u <= v)
  /\ (sends "so" v input1 -> v * 4095 / 30000 + st AMP <= 4095 ->
      command input2 = "go" ->
      exists u,
        run_out (read_commands e2) (run_state (loop fpu e1) st)
        = [Serial_println_float u; confirmation input2]
        /\ run_state (loop fpu e1) st OFFSET = v * 4095 / 30000
        /\ v - 8 <= u <= v).
Proof.
  intros R M B I1 I2.
  assert (Iv : is_int v)
    by (unfold is_int, INT_MIN, INT_MAX, VOLTAGE_MIN, VOLTAGE_MAX in *; lia).
  split; intros Sd S C2.
  - destruct (sends_tokens "sa" v input1 eq_refl eq_refl Iv Sd) as [C1 V].
    destruct (sum_setter_pass fpu e1 input1 "sa" st AMP OFFSET LAST_AMP v)
      as [L X]; try assumption; [cbn [In]; tauto |].
    exists (map_output_voltage (v * 4095 / 30000)).
    split; [| split; [exact X | apply voltage_read_back; exact B]].
    destruct (read_commands_line e2 input2 (run_state (loop fpu e1) st) I2)
      as [_ ->].
    unfold run_out. rewrite C2, execute_ga, L. reflexivity.
  - destruct (sends_tokens "so" v input1 eq_refl eq_refl Iv Sd) as [C1 V].
    destruct (sum_setter_pass fpu e1 input1 "so" st OFFSET AMP LAST_OFFSET v)
      as [L X]; try assumption; [cbn [In]; tauto |].
    exists (map_output_voltage (v * 4095 / 30000)).
    split; [| split; [exact X | apply voltage_read_back; exact B]].
    destruct (read_commands_line e2 input2 (run_state (loop fpu e1) st) I2)
      as [_ ->].
    unfold run_out. rewrite C2, execute_go, L. reflexivity.
Qed.

(** [sa 5000] read in function-generator mode, then [ga]: 4996 is
    printed. *)
Lemma ga_go_after_applied_witness :
  exists u,
    run_out (read_commands (line_env "ga"))
      (run_state (loop idle_fpu (line_env "sa 5000")) (after_lines ["sm 1"]))
    = [Serial_println_float u; confirmation "ga"]
    /\ run_state (loop idle_fpu (line_env "sa 5000")) (after_lines ["sm 1"])
         AMP
       = 5000 * 4095 / 30000
    /\ 5000 - 8 <= u <= 5000.
Proof.
  destruct (ga_go_after_applied idle_fpu (line_env "sa 5000") (line_env "ga")
              "sa 5000" "ga" (after_lines ["sm 1"]) 5000)
    as [A _].
  - apply after_lines_reachable.
  - vm_compute. reflexivity.
  - unfold VOLTAGE_MIN, VOLTAGE_MAX. lia.
  - reflexivity.
  - reflexivity.
  - apply A.
    + left. reflexivity.
    + vm_compute. discriminate.
    + reflexivity.
Defined.

(** ** Instances of the properties that hold in every state *)

(** [gm] in the initial state: two printed lines, no DAC write, and the
    last-applied voltage as it was. *)
Lemma read_commands_only_stages_witness :
  voltage_dac_writes (run_out (read_commands (line_env "gm")) initial_state)
  = []
  /\ run_state (read_commands (line_env "sv 1000")) initial_state LAST_VOLTAGE
     = initial_state LAST_VOLTAGE.
Proof.
  split.
  - exact (proj1 (read_commands_only_stages (line_env "gm") initial_state)).
  - apply (read_commands_only_stages (line_env "sv 1000") initial_state).
    unfold applied_or_measured. cbn [In]. tauto.
Defined.

(** A pass reading [sv 1000] in PSU mode applies the voltage and leaves
    the last-applied frequency at 0 although 10 Hz is staged. *)
Lemma pass_applies_active_mode_witness :
  run_state (loop idle_fpu (line_env "sv 1000")) initial_state LAST_VOLTAGE
  = run_state (loop idle_fpu (line_env "sv 1000")) initial_state VOLTAGE
  /\ run_state (loop idle_fpu (line_env "sv 1000")) initial_state LAST_FREQ
     = initial_state LAST_FREQ.
Proof.
  destruct (pass_applies_active_mode idle_fpu (line_env "sv 1000")
              initial_state) as [P _].
  destruct (P ltac:(vm_compute; reflexivity)) as (V & _ & F & _).
  split; [exact V | exact F].
Defined.

(** [r] read in function-generator mode. *)
Lemma shutdown_pin_follows_r_and_s_witness :
  shutdown_writes (run_out (loop idle_fpu (line_env "r")) (after_lines ["sm 1"]))
  = [HIGH]
  /\ run_state (read_commands (line_env "r")) (after_lines ["sm 1"])
     = after_lines ["sm 1"].
Proof.
  destruct (shutdown_pin_follows_r_and_s idle_fpu (line_env "r")
              (after_lines ["sm 1"])) as [W K].
  split; [exact W |].
  apply (K "r"); [reflexivity | left; reflexivity].
Defined.
